(** * Scholarship rule engine (SD23035_LAB3.py)

    A shallow embedding of the rule engine of [SD23035_LAB3.py]: the operator
    registry [OPS], [evaluate_condition], [rule_matches], [run_rules] and the
    fixture [DEFAULT_RULES], together with the properties of the engine.

    Facts and rules reach the engine as Python objects built from form inputs
    and from [json.loads]; the embedding therefore works over the universe of
    JSON values, and every Python operation that can raise is a function into
    [result].

    Modelling conventions.
    - Numbers are the finite ones of JSON.  A [float] is represented by the
      rational it denotes ([VFloat]); Python compares [int], [bool] and
      [float] by mathematical value, which is what [num_of] computes.
    - A [str] is a Rocq [string] holding its UTF-8 bytes.  Equality, ordering
      and substring search agree with Python's on code points; [len] and
      iteration of a string (reached only when a condition is itself a
      string) are exact for ASCII strings.
    - A [dict] is an association list in insertion order with string keys,
      as [json.loads] builds it. *)

From Stdlib Require Import List String Ascii Bool ZArith QArith Lia.
From Stdlib Require Import Permutation Sorted.
Import ListNotations.

Local Open Scope string_scope.
Local Open Scope list_scope.

Set Warnings "-register-all".

(** ** Values *)

Inductive value : Type :=
| VNone
| VBool (b : bool)
| VInt (n : Z)
| VFloat (q : Q)
| VStr (s : string)
| VList (l : list value)
| VDict (d : list (string * value)).

Definition dict : Type := list (string * value).

(** ** Exceptions *)

Inductive exc : Type := TypeError | ValueError.

Inductive result (A : Type) : Type :=
| Ok (a : A)
| Raise (e : exc).

Arguments Ok {A} a.
Arguments Raise {A} e.

Definition bind {A B : Type} (r : result A) (k : A -> result B) : result B :=
  match r with
  | Ok a => k a
  | Raise e => Raise e
  end.

Notation "x <- r ;; k" := (bind r (fun x => k))
  (at level 61, r at next level, right associativity).

(** [try: r except Exception: return False] *)
Definition try_except_false (r : result bool) : result bool :=
  match r with
  | Ok b => Ok b
  | Raise _ => Ok false
  end.

(** ** Dictionaries *)

Fixpoint lookup {A : Type} (k : string) (d : list (string * A)) : option A :=
  match d with
  | [] => None
  | (k', v) :: d' => if k =? k' then Some v else lookup k d'
  end.

(** [d.get(k, default)] for a string literal [k]. *)
Definition dict_get (d : dict) (k : string) (default : value) : value :=
  match lookup k d with
  | Some v => v
  | None => default
  end.

(** Lists and dicts are unhashable; every other JSON value has a hash. *)
Definition hashable (v : value) : bool :=
  match v with
  | VList _ | VDict _ => false
  | _ => true
  end.

(** The outcome of [k in d] followed, when it holds, by [d[k]], for a
    dictionary with string keys: hashing an unhashable key raises
    [TypeError]; a hashable key that is not a string equals no key. *)
Definition find {A : Type} (d : list (string * A)) (k : value)
  : result (option A) :=
  match k with
  | VStr s => Ok (lookup s d)
  | VList _ | VDict _ => Raise TypeError
  | _ => Ok None
  end.

(** ** Built-in operations on values *)

Definition num_of (v : value) : option Q :=
  match v with
  | VBool b => Some (if b then 1 else 0)%Q
  | VInt n => Some (inject_Z n)
  | VFloat q => Some q
  | _ => None
  end.

(** [a == b] *)
Fixpoint py_eqb (a b : value) {struct a} : bool :=
  match a, b with
  | VNone, VNone => true
  | VStr s, VStr t => (s =? t)%string
  | VList l1, VList l2 =>
      (fix eq_items (l1 l2 : list value) {struct l1} : bool :=
         match l1, l2 with
         | [], [] => true
         | x :: xs, y :: ys => py_eqb x y && eq_items xs ys
         | _, _ => false
         end) l1 l2
  | VDict d1, VDict d2 =>
      (List.length d1 =? List.length d2)%nat &&
      (fix eq_entries (d : list (string * value)) {struct d} : bool :=
         match d with
         | [] => true
         | (k, v) :: d' =>
             match lookup k d2 with
             | Some w => py_eqb v w
             | None => false
             end && eq_entries d'
         end) d1
  | _, _ =>
      match num_of a, num_of b with
      | Some p, Some q => Qeq_bool p q
      | _, _ => false
      end
  end.

Inductive cmpop : Type := Lt | Le | Gt | Ge.

Definition Qlt_bool (p q : Q) : bool := negb (Qle_bool q p).

Definition cmp_num (op : cmpop) (p q : Q) : bool :=
  match op with
  | Lt => Qlt_bool p q
  | Le => Qle_bool p q
  | Gt => Qlt_bool q p
  | Ge => Qle_bool q p
  end.

Definition cmp_str (op : cmpop) (s t : string) : bool :=
  match op with
  | Lt => String.ltb s t
  | Le => String.leb s t
  | Gt => String.ltb t s
  | Ge => String.leb t s
  end.

Definition cmp_len (op : cmpop) (m n : nat) : bool :=
  match op with
  | Lt => (m <? n)%nat
  | Le => (m <=? n)%nat
  | Gt => (n <? m)%nat
  | Ge => (n <=? m)%nat
  end.

(** [a < b], [a <= b], [a > b], [a >= b].  Numbers compare by value,
    strings lexicographically; lists compare their first differing items
    (or their lengths when one is a prefix of the other); every other pair
    of operands raises [TypeError]. *)
Fixpoint py_compare (op : cmpop) (a b : value) {struct a} : result bool :=
  match a, b with
  | VStr s, VStr t => Ok (cmp_str op s t)
  | VList l1, VList l2 =>
      (fix cmp_items (l1 l2 : list value) {struct l1} : result bool :=
         match l1, l2 with
         | x :: xs, y :: ys =>
             if py_eqb x y then cmp_items xs ys else py_compare op x y
         | _, _ => Ok (cmp_len op (List.length l1) (List.length l2))
         end) l1 l2
  | _, _ =>
      match num_of a, num_of b with
      | Some p, Some q => Ok (cmp_num op p q)
      | _, _ => Raise TypeError
      end
  end.

(** Substring search, [a in b] for two strings. *)
Fixpoint str_contains (a b : string) {struct b} : bool :=
  prefix a b ||
  match b with
  | EmptyString => false
  | String _ b' => str_contains a b'
  end.

(** [a in b] *)
Definition py_in (a b : value) : result bool :=
  match b with
  | VList l => Ok (existsb (py_eqb a) l)
  | VStr t =>
      match a with
      | VStr s => Ok (str_contains s t)
      | _ => Raise TypeError
      end
  | VDict d =>
      r <- find d a ;;
      Ok (match r with Some _ => true | None => false end)
  | _ => Raise TypeError
  end.

(** [a not in b] *)
Definition py_not_in (a b : value) : result bool :=
  r <- py_in a b ;; Ok (negb r).

(** [len(v)] *)
Definition py_len (v : value) : result nat :=
  match v with
  | VList l => Ok (List.length l)
  | VStr s => Ok (String.length s)
  | VDict d => Ok (List.length d)
  | _ => Raise TypeError
  end.

(** The items [for x in v] yields. *)
Definition py_iter (v : value) : result (list value) :=
  match v with
  | VList l => Ok l
  | VStr s => Ok (map (fun c => VStr (String c EmptyString))
                      (list_ascii_of_string s))
  | VDict d => Ok (map (fun kv => VStr (fst kv)) d)
  | _ => Raise TypeError
  end.

(** ** The rule engine *)

Definition binop : Type := value -> value -> result bool.

Definition OPS : list (string * binop) :=
  [ ("==", fun a b => Ok (py_eqb a b));
    ("!=", fun a b => Ok (negb (py_eqb a b)));
    (">", py_compare Gt);
    (">=", py_compare Ge);
    ("<", py_compare Lt);
    ("<=", py_compare Le);
    ("in", fun a b => py_in a b);
    ("not_in", fun a b => py_not_in a b) ].

(** [evaluate_condition(facts, cond)].  The test
    [field not in facts or op not in OPS] and the subscripts [facts[field]],
    [OPS[op]] hash the same keys: [find] gives the outcome of the membership
    test and the value the subscript then returns.  Only the application of
    the operator is inside the [try]. *)
Definition evaluate_condition (facts : dict) (cond : value) : result bool :=
  n <- py_len cond ;;
  if negb (n =? 3)%nat then Ok false
  else
    items <- py_iter cond ;;
    match items with
    | [field; op; v] =>
        x <- find facts field ;;
        match x with
        | None => Ok false
        | Some a =>
            f <- find OPS op ;;
            match f with
            | None => Ok false
            | Some f => try_except_false (f a v)
            end
        end
    | _ => Raise ValueError
    end.

(** [all(evaluate_condition(facts, c) for c in conds)]: the generator is
    consumed up to the first false item. *)
Fixpoint all_conditions (facts : dict) (conds : list value) : result bool :=
  match conds with
  | [] => Ok true
  | c :: cs =>
      b <- evaluate_condition facts c ;;
      if b then all_conditions facts cs else Ok false
  end.

Definition rule_matches (facts rule : dict) : result bool :=
  conds <- py_iter (dict_get rule "conditions" (VList [])) ;;
  all_conditions facts conds.

(** [[r for r in rules if rule_matches(facts, r)]] *)
Fixpoint fired_rules (facts : dict) (rules : list dict) : result (list dict) :=
  match rules with
  | [] => Ok []
  | r :: rs =>
      b <- rule_matches facts r ;;
      rest <- fired_rules facts rs ;;
      Ok (if b then r :: rest else rest)
  end.

(** [sorted(l, key=key, reverse=True)].  [list.sort] is a stable sort that
    compares keys with [<] only; on keys that [<] orders totally every stable
    sort returns the same list, and on keys that are not lists it raises
    exactly when two of them are incomparable.  The model is the insertion
    sort with these properties: [x] goes behind the items whose key is
    greater and in front of the first one whose key is not. *)
Section Sorted.
Context {A : Type} (key : A -> value).

Fixpoint insert_desc (x : A) (l : list A) : result (list A) :=
  match l with
  | [] => Ok [x]
  | y :: ys =>
      b <- py_compare Lt (key x) (key y) ;;
      if b then (r <- insert_desc x ys ;; Ok (y :: r))
      else Ok (x :: y :: ys)
  end.

Fixpoint sorted_reverse (l : list A) : result (list A) :=
  match l with
  | [] => Ok []
  | x :: xs => s <- sorted_reverse xs ;; insert_desc x s
  end.
End Sorted.

Definition priority (r : dict) : value := dict_get r "priority" (VInt 0).

Definition NO_RULE : value :=
  VDict [("decision", VStr "NO_RULE"); ("reason", VStr "No rules matched")].

Definition NO_ACTION : value :=
  VDict [("decision", VStr "NO_ACTION"); ("reason", VStr "-")].

Definition run_rules (facts : dict) (rules : list dict)
  : result (value * list dict) :=
  fired <- fired_rules facts rules ;;
  match fired with
  | [] => Ok (NO_RULE, [])
  | _ :: _ =>
      fired_sorted <- sorted_reverse priority fired ;;
      match fired_sorted with
      | best :: _ => Ok (dict_get best "action" NO_ACTION, fired_sorted)
      | [] => Raise ValueError
      end
  end.

(** ** The default scholarship rules

    The float literals are the binary64 numbers Python reads them as:
    [3.7], [3.3] and [2.5]. *)

Definition float_3_7 : Q := 4165829655317709 # 1125899906842624.
Definition float_3_3 : Q := 3715469692580659 # 1125899906842624.
Definition float_2_5 : Q := 5 # 2.

Definition condition (field op : string) (v : value) : value :=
  VList [VStr field; VStr op; v].

Definition action (decision reason : string) : value :=
  VDict [("decision", VStr decision); ("reason", VStr reason)].

Definition top_merit : dict :=
  [ ("name", VStr "Top merit candidate");
    ("priority", VInt 100);
    ("conditions", VList
       [ condition "cgpa" ">=" (VFloat float_3_7);
         condition "co_curricular_score" ">=" (VInt 80);
         condition "family_income" "<=" (VInt 8000);
         condition "disciplinary_actions" "==" (VInt 0) ]);
    ("action", action "AWARD_FULL"
       "Excellent academic & co-curricular performance, with acceptable need") ].

Definition good_candidate : dict :=
  [ ("name", VStr "Good candidate - partial scholarship");
    ("priority", VInt 80);
    ("conditions", VList
       [ condition "cgpa" ">=" (VFloat float_3_3);
         condition "co_curricular_score" ">=" (VInt 60);
         condition "family_income" "<=" (VInt 12000);
         condition "disciplinary_actions" "<=" (VInt 1) ]);
    ("action", action "AWARD_PARTIAL"
       "Good academic & involvement record with moderate need") ].

Definition need_based : dict :=
  [ ("name", VStr "Need-based review");
    ("priority", VInt 70);
    ("conditions", VList
       [ condition "cgpa" ">=" (VFloat float_2_5);
         condition "family_income" "<=" (VInt 4000) ]);
    ("action", action "REVIEW" "High need but borderline academic score") ].

Definition low_cgpa : dict :=
  [ ("name", VStr "Low CGPA – not eligible");
    ("priority", VInt 95);
    ("conditions", VList [ condition "cgpa" "<" (VFloat float_2_5) ]);
    ("action", action "REJECT" "CGPA below minimum scholarship requirement") ].

Definition serious_disciplinary : dict :=
  [ ("name", VStr "Serious disciplinary record");
    ("priority", VInt 90);
    ("conditions", VList [ condition "disciplinary_actions" ">=" (VInt 2) ]);
    ("action", action "REJECT" "Too many disciplinary records") ].

Definition DEFAULT_RULES : list dict :=
  [top_merit; good_candidate; need_based; low_cgpa; serious_disciplinary].

(** ** Scenario facts

    [3.9] is the binary64 number Python reads the literal as. *)

Definition float_3_9 : Q := 8782019273372467 # 2251799813685248.

Definition scenario_4 : dict :=
  [ ("cgpa", VFloat float_3_9);
    ("family_income", VInt 2000);
    ("co_curricular_score", VInt 90);
    ("disciplinary_actions", VInt 3) ].

(** Two rules without conditions whose priorities are equal numbers, an
    [int] and a [float]. *)
Definition tie_A : dict := [("name", VStr "A"); ("priority", VInt 5)].
Definition tie_B : dict := [("name", VStr "B"); ("priority", VFloat (10 # 2))].

(** A rule that has only a name, and a rule of negative priority. *)
Definition bare_rule : dict := [("name", VStr "Bare")].

Definition negative_rule : dict :=
  [ ("name", VStr "Negative");
    ("priority", VInt (-1));
    ("action", action "REVIEW" "-") ].

(** A rule whose only condition has a list in the place of the field. *)
Definition list_field_condition : value :=
  VList [VList [VStr "cgpa"]; VStr ">="; VInt 3].

Definition list_field_rule : dict :=
  [ ("name", VStr "List field");
    ("priority", VInt 1);
    ("conditions", VList [list_field_condition]);
    ("action", action "REVIEW" "-") ].

(** ** Vocabulary of the properties *)

Definition is_number (v : value) : bool :=
  match num_of v with
  | Some _ => true
  | None => false
  end.

(** The number a numeric key denotes. *)
Definition num_key {A : Type} (key : A -> value) (x : A) : Q :=
  match num_of (key x) with
  | Some q => q
  | None => 0%Q
  end.

(** A key that is a number, and the descending order of numeric keys. *)
Definition numeric_key {A : Type} (key : A -> value) (x : A) : Prop :=
  is_number (key x) = true.

Definition key_ge {A : Type} (key : A -> value) (a b : A) : Prop :=
  (num_key key b <= num_key key a)%Q.

Definition prio (r : dict) : Q := num_key priority r.

Definition numeric_priority (r : dict) : Prop :=
  is_number (priority r) = true.

(** [a] comes no later than [b] in descending priority order. *)
Definition prio_ge (a b : dict) : Prop := (prio b <= prio a)%Q.

Definition has_priority (p : Q) (r : dict) : bool := Qeq_bool (prio r) p.

(** Insertion sort on the numbers the keys denote: what [sorted_reverse]
    computes when every key is a number. *)
Section NumSort.
Context {A : Type} (q : A -> Q).

Fixpoint insert_num (x : A) (l : list A) : list A :=
  match l with
  | [] => [x]
  | y :: ys =>
      if Qlt_bool (q x) (q y) then y :: insert_num x ys else x :: y :: ys
  end.

Fixpoint sort_num (l : list A) : list A :=
  match l with
  | [] => []
  | x :: xs => insert_num x (sort_num xs)
  end.
End NumSort.

(** A rule with the [priority] field written out when it is missing. *)
Definition with_default_priority (r : dict) : dict :=
  match lookup "priority" r with
  | Some _ => r
  | None => r ++ [("priority", VInt 0)]
  end.

(** The decision tag of a rule's action, when it has one. *)
Definition decision_of (r : dict) : value :=
  match dict_get r "action" NO_ACTION with
  | VDict a => dict_get a "decision" VNone
  | _ => VNone
  end.

Definition is_award (r : dict) : bool :=
  match decision_of r with
  | VStr d => (d =? "AWARD_FULL") || (d =? "AWARD_PARTIAL")
  | _ => false
  end.

(** Python types of the scalar values. *)
Inductive scalar_type : Type := TNone | TNumber | TStr.

Definition scalar_type_of (v : value) : option scalar_type :=
  match v with
  | VNone => Some TNone
  | VBool _ | VInt _ | VFloat _ => Some TNumber
  | VStr _ => Some TStr
  | VList _ | VDict _ => None
  end.

(** ** Priorities as the rules declare them *)

(** The number in the [priority] field of a rule, read off the rule itself;
    a rule without the field counts as 0. *)
Definition declared_priority (r : dict) : Q :=
  match lookup "priority" r with
  | Some v =>
      match num_of v with
      | Some q => q
      | None => 0%Q
      end
  | None => 0%Q
  end.

(** The [priority] field, when the rule has one, holds a number. *)
Definition priority_is_number (r : dict) : Prop :=
  match lookup "priority" r with
  | Some v => is_number v = true
  | None => True
  end.

(** [a] declares a priority at least as high as [b]. *)
Definition declared_ge (a b : dict) : Prop :=
  (declared_priority b <= declared_priority a)%Q.



(** Conditions of three items with a list in the place of a field that is
    not among the scenario facts, and in the place of the operator. *)
Definition absent_list_field_condition : value :=
  VList [VList [VStr "semester"]; VStr ">="; VInt 1].

Definition list_operator_condition : value :=
  VList [VStr "cgpa"; VList [VStr ">="]; VInt 3].

(** A rule whose only condition is a number. *)
Definition number_condition_rule : dict :=
  [ ("name", VStr "Number condition"); ("conditions", VList [VInt 5]) ].

(** A condition the tests of [evaluate_condition] can be run on: a list
    whose field and operator, when it has three items, are hashable. *)
Definition testable_condition (c : value) : Prop :=
  exists l, c = VList l /\
    forall field op v, l = [field; op; v] ->
      hashable field = true /\ hashable op = true.

(** A rule whose [conditions], when present, is a list of testable
    conditions and whose [priority], when present, is a number. *)
Definition valid_rule (r : dict) : Prop :=
  (exists conds, dict_get r "conditions" (VList []) = VList conds /\
                 Forall testable_condition conds) /\
  numeric_priority r.

(** Whether a rule is kept by the comprehension of [run_rules]. *)
Definition matchesb (facts rule : dict) : bool :=
  match rule_matches facts rule with
  | Ok true => true
  | _ => false
  end.

(** The default rules in descending order of their priorities. *)
Definition by_priority : list dict :=
  [top_merit; low_cgpa; serious_disciplinary; good_candidate; need_based].

(** The decision of a fired list: the action of its first rule. *)
Definition decision_for (fired : list dict) : value :=
  match fired with
  | [] => NO_RULE
  | best :: _ => dict_get best "action" NO_ACTION
  end.

(** Rules no two of which have the same number for priority ([Qred] is the
    irreducible fraction, so that 5 and 5.0 count as the same). *)
Definition distinct_priorities (l : list dict) : Prop :=
  NoDup (map (fun r => Qred (prio r)) l).

(** No condition of the rules names the field [k]. *)
Definition condition_ignores (k : string) (c : value) : Prop :=
  forall field op v, py_iter c = Ok [field; op; v] -> field <> VStr k.

Definition rule_ignores (k : string) (r : dict) : Prop :=
  forall conds, py_iter (dict_get r "conditions" (VList [])) = Ok conds ->
                Forall (condition_ignores k) conds.

(** Two fact sets that differ at most in the field [k]. *)
Definition same_but (k : string) (facts facts' : dict) : Prop :=
  forall f, f <> k -> lookup f facts = lookup f facts'.

(** A priority that [<] accepts on neither side: [null] or an object. *)
Definition unorderable (v : value) : Prop :=
  v = VNone \/ exists d, v = VDict d.

(** A rule that matches on every fact set and has [null] for priority, and
    one with a string for priority. *)
Definition null_priority_rule : dict :=
  [ ("name", VStr "Null"); ("priority", VNone);
    ("action", action "REVIEW" "-") ].

Definition string_priority_rule : dict :=
  [ ("name", VStr "High"); ("priority", VStr "high");
    ("action", action "REVIEW" "-") ].

(** A rule whose second condition would raise and whose first is false on
    the scenario facts. *)
Definition guarded_rule : dict :=
  [ ("name", VStr "Guarded");
    ("conditions", VList [ condition "cgpa" "<" (VInt 1);
                           list_field_condition ]) ].

(** The values [len] rejects: [null], booleans and numbers. *)
Definition unsized (v : value) : bool :=
  match v with
  | VNone | VBool _ | VInt _ | VFloat _ => true
  | _ => false
  end.

(** Exactly one of three booleans holds. *)
Definition exactly_one (a b c : bool) : Prop :=
  (a = true /\ b = false /\ c = false) \/
  (a = false /\ b = true /\ c = false) \/
  (a = false /\ b = false /\ c = true).

(** A rule whose [conditions] is a number. *)
Definition number_conditions_rule : dict :=
  [ ("name", VStr "Number"); ("conditions", VInt 5) ].

(** The facts of scenario 1; [3.8] is the binary64 number Python reads. *)
Definition float_3_8 : Q := 4278419646001971 # 1125899906842624.

Definition scenario_1 : dict :=
  [ ("cgpa", VFloat float_3_8);
    ("co_curricular_score", VInt 85);
    ("family_income", VInt 5000);
    ("disciplinary_actions", VInt 0) ].

(** The [decision] tag of an action. *)
Definition decision_tag (a : value) : value :=
  match a with
  | VDict d => dict_get d "decision" VNone
  | _ => VNone
  end.

(** The scenario facts with the [semester] of the form added. *)
Definition scenario_4_form : dict := scenario_4 ++ [("semester", VInt 4)].

(** ** The Final Decision column

    The call the script makes to show the decision.  The text of the first
    three kinds is [label — reason], an f-string; the model keeps the label
    and the value formatted behind it.  [action.get] exists on a dict only:
    on any other value the script stops with [AttributeError]. *)

Inductive panel : Type :=
| st_success (label : string) (reason : value)
| st_error (label : string) (reason : value)
| st_warning (label : string) (reason : value)
| st_info (body : value).

Inductive shown : Type :=
| Shows (p : panel)
| AttributeError.

Definition final_decision (act : value) : shown :=
  match act with
  | VDict a =>
      let dec := dict_get a "decision" (VStr "REVIEW") in
      let reason := dict_get a "reason" (VStr "-") in
      if py_eqb dec (VStr "AWARD_FULL") then
        Shows (st_success "FULL SCHOLARSHIP" reason)
      else if py_eqb dec (VStr "AWARD_PARTIAL") then
        Shows (st_success "PARTIAL SCHOLARSHIP" reason)
      else if py_eqb dec (VStr "REJECT") then
        Shows (st_error "REJECTED" reason)
      else if py_eqb dec (VStr "REVIEW") then
        Shows (st_warning "REVIEW REQUIRED" reason)
      else Shows (st_info dec)
  | _ => AttributeError
  end.

Definition is_info (p : panel) : bool :=
  match p with
  | st_info _ => true
  | _ => false
  end.

(** A rule whose action is an empty object, and one whose action is a
    string. *)
Definition empty_action_rule : dict :=
  [ ("name", VStr "Empty action"); ("action", VDict []) ].

Definition string_action_rule : dict :=
  [ ("name", VStr "String action"); ("action", VStr "REJECT") ].

(** * Properties *)

(** ** The result monad *)

Lemma bind_Ok {A B : Type} (r : result A) (k : A -> result B) (b : B) :
  bind r k = Ok b -> exists a, r = Ok a /\ k a = Ok b.
Proof.
  destruct r as [a | e]; simpl; intros H; [eauto | discriminate].
Qed.

(** ** Comparison of numbers *)

Lemma Qlt_bool_iff (p q : Q) : Qlt_bool p q = true <-> (p < q)%Q.
Proof.
  unfold Qlt_bool. rewrite negb_true_iff. split.
  - intros H. apply Qnot_le_lt. intros Hle.
    apply Qle_bool_iff in Hle. congruence.
  - intros H. destruct (Qle_bool q p) eqn:E; [ | reflexivity].
    apply Qle_bool_iff in E. exfalso. exact (Qlt_not_le _ _ H E).
Qed.

Lemma Qlt_bool_false (p q : Q) : Qlt_bool p q = false <-> (q <= p)%Q.
Proof.
  unfold Qlt_bool. rewrite negb_false_iff. apply Qle_bool_iff.
Qed.

Lemma py_compare_num (op : cmpop) (a b : value) (p q : Q) :
  num_of a = Some p -> num_of b = Some q ->
  py_compare op a b = Ok (cmp_num op p q).
Proof.
  intros Ha Hb.
  destruct a; simpl in Ha; try discriminate;
    destruct b; simpl in Hb; try discriminate;
    simpl; injection Ha as <-; injection Hb as <-; reflexivity.
Qed.

Lemma is_number_num_of (v : value) :
  is_number v = true -> exists q, num_of v = Some q.
Proof.
  unfold is_number. destruct (num_of v) as [q | ]; [eauto | discriminate].
Qed.

(** ** The sort on numeric keys *)

Section SortFacts.
Context {A : Type} (key : A -> value).

Local Abbreviation q := (num_key key).
Local Abbreviation numeric := (numeric_key key).
Local Abbreviation ge := (key_ge key).

Lemma compare_keys (x y : A) :
  numeric x -> numeric y ->
  py_compare Lt (key x) (key y) = Ok (Qlt_bool (q x) (q y)).
Proof.
  intros Hx Hy.
  destruct (is_number_num_of _ Hx) as [p Hp].
  destruct (is_number_num_of _ Hy) as [r Hr].
  unfold q, num_key. rewrite Hp, Hr.
  apply (py_compare_num Lt); assumption.
Qed.

Lemma insert_desc_numeric (x : A) (l : list A) :
  numeric x -> Forall numeric l ->
  insert_desc key x l = Ok (insert_num q x l).
Proof.
  intros Hx Hl. induction Hl as [ | y ys Hy Hys IH]; simpl.
  - reflexivity.
  - rewrite (compare_keys x y Hx Hy). simpl.
    destruct (Qlt_bool (q x) (q y)); [ | reflexivity].
    rewrite IH. reflexivity.
Qed.

Lemma insert_num_perm (x : A) (l : list A) :
  Permutation (x :: l) (insert_num q x l).
Proof.
  induction l as [ | y ys IH]; simpl.
  - apply Permutation_refl.
  - destruct (Qlt_bool (q x) (q y)).
    + eapply perm_trans; [apply perm_swap | ].
      apply perm_skip. exact IH.
    + apply Permutation_refl.
Qed.

Lemma sort_num_perm (l : list A) : Permutation l (sort_num q l).
Proof.
  induction l as [ | x xs IH]; simpl.
  - apply perm_nil.
  - eapply perm_trans; [ | apply insert_num_perm].
    apply perm_skip. exact IH.
Qed.

Lemma sorted_reverse_numeric (l : list A) :
  Forall numeric l -> sorted_reverse key l = Ok (sort_num q l).
Proof.
  intros Hl. induction Hl as [ | x xs Hx Hxs IH]; simpl.
  - reflexivity.
  - rewrite IH. simpl. apply insert_desc_numeric; [exact Hx | ].
    eapply Permutation_Forall; [apply sort_num_perm | exact Hxs].
Qed.

Lemma insert_num_sorted (x : A) (l : list A) :
  StronglySorted ge l -> StronglySorted ge (insert_num q x l).
Proof.
  intros Hl. induction Hl as [ | y ys Hys IH Hall]; simpl.
  - constructor; constructor.
  - destruct (Qlt_bool (q x) (q y)) eqn:E.
    + constructor; [exact IH | ].
      eapply Permutation_Forall; [apply insert_num_perm | ].
      constructor; [ | exact Hall].
      apply Qlt_bool_iff in E. unfold ge. apply Qlt_le_weak. exact E.
    + apply Qlt_bool_false in E.
      constructor; [constructor; assumption | ].
      constructor; [exact E | ].
      eapply Forall_impl; [ | exact Hall].
      intros z Hz. unfold ge in *. eapply Qle_trans; eassumption.
Qed.

Lemma sort_num_sorted (l : list A) : StronglySorted ge (sort_num q l).
Proof.
  induction l as [ | x xs IH]; simpl.
  - constructor.
  - apply insert_num_sorted. exact IH.
Qed.

(** Stability: the items of any one priority keep their input order. *)
Lemma insert_num_filter (p : Q) (x : A) (l : list A) :
  filter (fun y => Qeq_bool (q y) p) (insert_num q x l) =
  filter (fun y => Qeq_bool (q y) p) (x :: l).
Proof.
  induction l as [ | y ys IH]; [reflexivity | ].
  cbn [insert_num]. destruct (Qlt_bool (q x) (q y)) eqn:E; [ | reflexivity].
  cbn [filter] in *. rewrite IH.
  destruct (Qeq_bool (q x) p) eqn:Ex; [ | reflexivity].
  destruct (Qeq_bool (q y) p) eqn:Ey; [ | reflexivity].
  exfalso. apply Qlt_bool_iff in E.
  apply Qeq_bool_iff in Ex. apply Qeq_bool_iff in Ey.
  rewrite Ex, Ey in E. exact (Qlt_irrefl _ E).
Qed.

Lemma sort_num_filter (p : Q) (l : list A) :
  filter (fun y => Qeq_bool (q y) p) (sort_num q l) =
  filter (fun y => Qeq_bool (q y) p) l.
Proof.
  induction l as [ | x xs IH]; [reflexivity | ].
  cbn [sort_num]. rewrite insert_num_filter.
  cbn [filter]. rewrite IH. reflexivity.
Qed.
End SortFacts.

(** ** Dictionaries *)

Lemma lookup_app_Some {A : Type} (k : string) (d d' : list (string * A)) (v : A) :
  lookup k d = Some v -> lookup k (d ++ d') = Some v.
Proof.
  induction d as [ | [k' w] d IH]; simpl; [discriminate | ].
  destruct (k =? k')%string; [trivial | exact IH].
Qed.

Lemma lookup_app_None {A : Type} (k : string) (d d' : list (string * A)) :
  lookup k d = None -> lookup k (d ++ d') = lookup k d'.
Proof.
  induction d as [ | [k' w] d IH]; simpl; [reflexivity | ].
  destruct (k =? k')%string; [discriminate | exact IH].
Qed.

Lemma dict_get_default_priority (r : dict) (k : string) (default : value) :
  k <> "priority" ->
  dict_get (with_default_priority r) k default = dict_get r k default.
Proof.
  intros Hk. unfold with_default_priority, dict_get.
  destruct (lookup "priority" r); [reflexivity | ].
  destruct (lookup k r) as [v | ] eqn:E.
  - rewrite (lookup_app_Some _ _ _ _ E). reflexivity.
  - rewrite (lookup_app_None _ _ _ E). simpl.
    apply String.eqb_neq in Hk. rewrite Hk. reflexivity.
Qed.

Lemma priority_default_priority (r : dict) :
  priority (with_default_priority r) = priority r.
Proof.
  unfold with_default_priority, priority, dict_get.
  destruct (lookup "priority" r) as [v | ] eqn:E; [rewrite E; reflexivity | ].
  rewrite (lookup_app_None _ _ _ E). reflexivity.
Qed.

(** ** Conditions and matching *)

Lemma py_iter_len (c : value) (items : list value) :
  py_iter c = Ok items -> py_len c = Ok (List.length items).
Proof.
  destruct c; simpl; try discriminate; intros H; injection H as <-.
  - rewrite length_map.
    f_equal. induction s as [ | ch s IH]; simpl; congruence.
  - reflexivity.
  - rewrite length_map. reflexivity.
Qed.

(** What [evaluate_condition] does on a condition of three items. *)
Lemma evaluate_condition_triple (facts : dict) (c field op v : value) :
  py_iter c = Ok [field; op; v] ->
  evaluate_condition facts c =
    (x <- find facts field ;;
     match x with
     | None => Ok false
     | Some a =>
         f <- find OPS op ;;
         match f with
         | None => Ok false
         | Some f => try_except_false (f a v)
         end
     end).
Proof.
  intros H. unfold evaluate_condition.
  rewrite (py_iter_len _ _ H), H. reflexivity.
Qed.

Lemma evaluate_condition_field (facts : dict) (f op : string) (v a : value)
      (fn : binop) :
  lookup f facts = Some a -> lookup op OPS = Some fn ->
  evaluate_condition facts (condition f op v) = try_except_false (fn a v).
Proof.
  intros Hf Hop.
  rewrite (evaluate_condition_triple facts (condition f op v)
             (VStr f) (VStr op) v eq_refl).
  unfold find. cbn [bind]. rewrite Hf, Hop. reflexivity.
Qed.

Lemma all_conditions_true (facts : dict) (conds : list value) :
  all_conditions facts conds = Ok true <->
  Forall (fun c => evaluate_condition facts c = Ok true) conds.
Proof.
  induction conds as [ | c cs IH]; simpl.
  - split; [constructor | reflexivity].
  - split.
    + intros H. apply bind_Ok in H. destruct H as [b [Hb H]].
      destruct b; [ | discriminate].
      constructor; [exact Hb | apply IH; exact H].
    + intros H. inversion H as [ | c' cs' Hc Hcs]; subst.
      rewrite Hc. simpl. apply IH. exact Hcs.
Qed.

Lemma rule_matches_default_priority (facts r : dict) :
  rule_matches facts (with_default_priority r) = rule_matches facts r.
Proof.
  unfold rule_matches. rewrite dict_get_default_priority; [reflexivity | ].
  discriminate.
Qed.

Lemma fired_rules_default_priority (facts : dict) (rules : list dict) :
  fired_rules facts (map with_default_priority rules) =
  match fired_rules facts rules with
  | Ok fired => Ok (map with_default_priority fired)
  | Raise e => Raise e
  end.
Proof.
  induction rules as [ | r rs IH]; simpl; [reflexivity | ].
  rewrite rule_matches_default_priority, IH.
  destruct (rule_matches facts r) as [b | e]; simpl; [ | reflexivity].
  destruct (fired_rules facts rs) as [fired | e]; simpl; [ | reflexivity].
  destruct b; reflexivity.
Qed.

Lemma fired_rules_none (facts : dict) (rules : list dict) :
  Forall (fun r => rule_matches facts r = Ok false) rules ->
  fired_rules facts rules = Ok [].
Proof.
  intros H. induction H as [ | r rs Hr Hrs IH]; simpl; [reflexivity | ].
  rewrite Hr, IH. reflexivity.
Qed.

(** ** Sorting commutes with a map that keeps the keys *)

Lemma sort_num_map {A : Type} (q : A -> Q) (f : A -> A) (l : list A) :
  (forall x, q (f x) = q x) ->
  sort_num q (map f l) = map f (sort_num q l).
Proof.
  intros Hq.
  assert (Hins : forall x s,
             insert_num q (f x) (map f s) = map f (insert_num q x s)).
  { intros x s. induction s as [ | y ys IH]; simpl; [reflexivity | ].
    rewrite !Hq. destruct (Qlt_bool (q x) (q y)); simpl; [ | reflexivity].
    rewrite IH. reflexivity. }
  induction l as [ | x xs IH]; simpl; [reflexivity | ].
  rewrite IH. apply Hins.
Qed.

(** ** The run on numeric priorities *)

Lemma prio_default_priority (r : dict) : prio (with_default_priority r) = prio r.
Proof.
  unfold prio, num_key. rewrite priority_default_priority. reflexivity.
Qed.

Lemma sort_num_nonempty {A : Type} (key : A -> value) (x : A) (l : list A) :
  sort_num (num_key key) (x :: l) <> [].
Proof.
  intros H. pose proof (sort_num_perm key (x :: l)) as P.
  rewrite H in P. apply Permutation_sym, Permutation_nil in P. discriminate.
Qed.

(** The run, once the matching rules are known and their priorities are
    numbers. *)
Lemma run_rules_numeric (facts : dict) (rules fired : list dict) :
  fired_rules facts rules = Ok fired ->
  Forall numeric_priority fired ->
  run_rules facts rules =
    match sort_num prio fired with
    | [] => Ok (NO_RULE, [])
    | best :: rest => Ok (dict_get best "action" NO_ACTION, best :: rest)
    end.
Proof.
  intros Hf Hn. unfold run_rules. rewrite Hf. cbn [bind].
  destruct fired as [ | r rs]; [reflexivity | ].
  rewrite (sorted_reverse_numeric priority (r :: rs) Hn). cbn [bind].
  change (num_key priority) with prio.
  destruct (sort_num prio (r :: rs)) as [ | best rest] eqn:E; [ | reflexivity].
  exfalso. exact (sort_num_nonempty priority r rs E).
Qed.


(** ** Totality on testable conditions and valid rules *)

Lemma find_hashable {A : Type} (d : list (string * A)) (k : value) :
  hashable k = true -> exists x, find d k = Ok x.
Proof.
  destruct k; simpl; intros H; try discriminate; eauto.
Qed.

Lemma try_except_false_total (r : result bool) :
  exists b, try_except_false r = Ok b.
Proof.
  destruct r; simpl; eauto.
Qed.

Lemma evaluate_condition_total (facts : dict) (c : value) :
  testable_condition c -> exists b, evaluate_condition facts c = Ok b.
Proof.
  intros [l [-> Hl]].
  destruct (Nat.eqb (List.length l) 3) eqn:E.
  - apply Nat.eqb_eq in E.
    destruct l as [ | field [ | op [ | v [ | ? ?]]]]; try discriminate.
    destruct (Hl field op v eq_refl) as [Hf Hop].
    rewrite (evaluate_condition_triple facts (VList [field; op; v])
               field op v eq_refl).
    destruct (find_hashable facts field Hf) as [x ->]. cbn [bind].
    destruct x as [a | ]; [ | eauto].
    destruct (find_hashable OPS op Hop) as [f ->]. cbn [bind].
    destruct f as [f | ]; [apply try_except_false_total | eauto].
  - unfold evaluate_condition. cbn [py_len bind]. rewrite E. simpl. eauto.
Qed.

Lemma all_conditions_total (facts : dict) (conds : list value) :
  Forall testable_condition conds ->
  exists b, all_conditions facts conds = Ok b.
Proof.
  intros H. induction H as [ | c cs Hc Hcs IH]; simpl; [eauto | ].
  destruct (evaluate_condition_total facts c Hc) as [b ->]. cbn [bind].
  destruct b; [exact IH | eauto].
Qed.

Lemma rule_matches_total (facts r : dict) :
  valid_rule r -> exists b, rule_matches facts r = Ok b.
Proof.
  intros [[conds [Hc Hall]] _]. unfold rule_matches. rewrite Hc.
  cbn [py_iter bind]. apply all_conditions_total. exact Hall.
Qed.

Lemma fired_rules_total (facts : dict) (rules : list dict) :
  Forall valid_rule rules ->
  exists fired, fired_rules facts rules = Ok fired /\
                Forall numeric_priority fired.
Proof.
  intros H. induction H as [ | r rs Hr Hrs IH]; simpl.
  - exists []. split; [reflexivity | constructor].
  - destruct (rule_matches_total facts r Hr) as [b ->].
    destruct IH as [fired [-> Hn]]. cbn [bind].
    destruct b; eexists; split; try reflexivity; [ | exact Hn].
    constructor; [exact (proj2 Hr) | exact Hn].
Qed.

(** On valid rules the run returns. *)
Lemma run_rules_total (facts : dict) (rules : list dict) :
  Forall valid_rule rules ->
  exists decision fired, run_rules facts rules = Ok (decision, fired).
Proof.
  intros H. destruct (fired_rules_total facts rules H) as [fired [Hf Hn]].
  rewrite (run_rules_numeric facts rules fired Hf Hn).
  destruct (sort_num prio fired); eauto.
Qed.

(** ** Declared priorities and the sort key *)

Lemma prio_declared (r : dict) : prio r = declared_priority r.
Proof.
  unfold prio, num_key, priority, dict_get, declared_priority.
  destruct (lookup "priority" r); reflexivity.
Qed.

Lemma numeric_declared (r : dict) : priority_is_number r -> numeric_priority r.
Proof.
  unfold priority_is_number, numeric_priority, priority, dict_get.
  destruct (lookup "priority" r); [trivial | reflexivity].
Qed.

Lemma sorted_declared (l : list dict) :
  StronglySorted prio_ge l -> StronglySorted declared_ge l.
Proof.
  intros H. induction H as [ | x xs Hxs IH Hall]; constructor.
  - exact IH.
  - eapply Forall_impl; [ | exact Hall].
    intros y Hy. unfold declared_ge. rewrite <- !prio_declared. exact Hy.
Qed.

Lemma Qlt_bool_inject_Z (n m : Z) :
  Qlt_bool (inject_Z n) (inject_Z m) = (n <? m)%Z.
Proof.
  unfold Qlt_bool, Qle_bool, inject_Z. simpl.
  rewrite !Z.mul_1_r. symmetry. apply Z.ltb_antisym.
Qed.

Lemma prio_of_int (r : dict) (n : Z) :
  lookup "priority" r = Some (VInt n) -> prio r = inject_Z n.
Proof.
  intros H. rewrite prio_declared. unfold declared_priority.
  rewrite H. reflexivity.
Qed.

Lemma prio_of_missing (r : dict) :
  lookup "priority" r = None -> prio r = inject_Z 0.
Proof.
  intros H. rewrite prio_declared. unfold declared_priority.
  rewrite H. reflexivity.
Qed.

(** The fired list of two matching rules: the second comes first exactly
    when its priority is the greater. *)
Lemma sort_num_pair (R1 R2 : dict) :
  sort_num prio [R1; R2] =
  if Qlt_bool (prio R1) (prio R2) then [R2; R1] else [R1; R2].
Proof.
  reflexivity.
Qed.

(** The four guards of [evaluate_condition] on a condition that is a list:
    each returns false. *)
Lemma evaluate_condition_guards (facts : dict) (l : list value) :
  (List.length l <> 3%nat -> evaluate_condition facts (VList l) = Ok false) /\
  (forall field op v, l = [field; op; v] ->
     find facts field = Ok None ->
     evaluate_condition facts (VList l) = Ok false) /\
  (forall field op v a, l = [field; op; v] ->
     find facts field = Ok (Some a) -> find OPS op = Ok None ->
     evaluate_condition facts (VList l) = Ok false) /\
  (forall field op v a f e, l = [field; op; v] ->
     find facts field = Ok (Some a) -> find OPS op = Ok (Some f) ->
     f a v = Raise e ->
     evaluate_condition facts (VList l) = Ok false).
Proof.
  split; [ | split; [ | split]].
  - intros Hn. unfold evaluate_condition. cbn [py_len bind].
    apply Nat.eqb_neq in Hn. rewrite Hn. reflexivity.
  - intros field op v -> Hf.
    rewrite (evaluate_condition_triple facts (VList [field; op; v])
               field op v eq_refl), Hf. reflexivity.
  - intros field op v a -> Hf Hop.
    rewrite (evaluate_condition_triple facts (VList [field; op; v])
               field op v eq_refl), Hf.
    cbn [bind]. rewrite Hop. reflexivity.
  - intros field op v a f e -> Hf Hop Hr.
    rewrite (evaluate_condition_triple facts (VList [field; op; v])
               field op v eq_refl), Hf.
    cbn [bind]. rewrite Hop. cbn [bind]. rewrite Hr. reflexivity.
Qed.

(** * The claims *)



(** C2.  Whenever the priorities of the matching rules are numbers, the
    fired list [run_rules] returns keeps the matching rules of any one
    priority in their input order; with two matching rules A, B of equal
    priority, in that input order, the fired list is [A; B]. *)
Theorem run_rules_stable (facts : dict) (rules fired : list dict) :
  fired_rules facts rules = Ok fired ->
  Forall numeric_priority fired ->
  exists decision out,
    run_rules facts rules = Ok (decision, out) /\
    Permutation fired out /\
    (forall p, filter (has_priority p) out = filter (has_priority p) fired) /\
    (forall A B, fired = [A; B] -> (prio A == prio B)%Q -> out = [A; B]).
Proof.
  intros Hf Hn.
  pose proof (run_rules_numeric facts rules fired Hf Hn) as Hrun.
  assert (Hout : exists decision,
             run_rules facts rules = Ok (decision, sort_num prio fired)).
  { rewrite Hrun. destruct (sort_num prio fired); eauto. }
  destruct Hout as [decision Hout].
  exists decision, (sort_num prio fired).
  split; [exact Hout | ].
  split; [exact (sort_num_perm priority fired) | ].
  split; [intros p; exact (sort_num_filter priority p fired) | ].
  intros A B -> Heq. cbn [sort_num insert_num].
  assert (Hlt : Qlt_bool (prio A) (prio B) = false).
  { apply Qlt_bool_false. rewrite Heq. apply Qle_refl. }
  rewrite Hlt. reflexivity.
Qed.

Lemma run_rules_stable_witness :
  fired_rules scenario_4 [tie_A; tie_B] = Ok [tie_A; tie_B] /\
  Forall numeric_priority [tie_A; tie_B] /\
  exists decision out,
    run_rules scenario_4 [tie_A; tie_B] = Ok (decision, out) /\
    Permutation [tie_A; tie_B] out /\
    (forall p, filter (has_priority p) out =
               filter (has_priority p) [tie_A; tie_B]) /\
    (forall A B, [tie_A; tie_B] = [A; B] -> (prio A == prio B)%Q ->
       out = [A; B]).
Proof.
  assert (H1 : fired_rules scenario_4 [tie_A; tie_B] = Ok [tie_A; tie_B])
    by (vm_compute; reflexivity).
  assert (H2 : Forall numeric_priority [tie_A; tie_B])
    by (repeat constructor).
  split; [exact H1 | ]. split; [exact H2 | ].
  exact (run_rules_stable scenario_4 [tie_A; tie_B] [tie_A; tie_B] H1 H2).
Defined.

(** C3.  Malformed conditions on which [evaluate_condition] raises
    [TypeError] where it should return false: a condition of three items
    whose field is a list (no such field is among the facts), a condition
    whose operator is a list (no such operator is in the registry), and a
    condition that is a number, which is no sequence of three items.  The
    tests [len(cond)] and [field not in facts or op not in OPS] are outside
    the [try].  Through [rule_matches] the exception reaches [run_rules]. *)
Theorem malformed_condition_raises :
  find scenario_4 (VStr "semester") = Ok None /\
  evaluate_condition scenario_4 absent_list_field_condition = Raise TypeError /\
  find OPS (VStr "=>") = Ok None /\
  evaluate_condition scenario_4 list_operator_condition = Raise TypeError /\
  evaluate_condition scenario_4 (VInt 5) = Raise TypeError /\
  rule_matches scenario_4 number_condition_rule = Raise TypeError /\
  run_rules scenario_4 [number_condition_rule] = Raise TypeError.
Proof.
  repeat split; vm_compute; reflexivity.
Qed.

(** C4.  [evaluate_condition] raises [TypeError] on a condition of three
    items whose field is a list: the membership test [field not in facts]
    hashes the field outside the [try].  The exception leaves
    [rule_matches] and [run_rules] as it is. *)
Theorem list_field_raises :
  evaluate_condition scenario_4 list_field_condition = Raise TypeError /\
  rule_matches scenario_4 list_field_rule = Raise TypeError /\
  run_rules scenario_4 [list_field_rule] = Raise TypeError /\
  run_rules scenario_4 (DEFAULT_RULES ++ [list_field_rule]) = Raise TypeError.
Proof.
  repeat split; vm_compute; reflexivity.
Qed.

(** C5.  When at least one rule matches and the [priority] fields of the
    matching rules hold numbers, a fired rule without a [priority] field is
    placed as a rule of priority 0: the fired list descends in the declared
    priorities with a missing one counted as 0; of two matching rules, one
    with priority [n] and one without the field, the one without comes first
    exactly when [n] is negative (or when [n] is 0 and it is first in the
    input); and the run is the run on the same rules with [priority: 0]
    written into every rule that lacks the field.  When the first rule of
    the fired list has no [action], the decision is
    [{decision: NO_ACTION, reason: -}]. *)
Theorem run_rules_defaults (facts : dict) (rules fired : list dict) :
  fired_rules facts rules = Ok fired ->
  fired <> [] ->
  Forall priority_is_number fired ->
  exists decision best rest,
    run_rules facts rules = Ok (decision, best :: rest) /\
    Permutation fired (best :: rest) /\
    StronglySorted declared_ge (best :: rest) /\
    (forall R1 R2 n, fired = [R1; R2] ->
       lookup "priority" R1 = Some (VInt n) -> lookup "priority" R2 = None ->
       ((n < 0)%Z -> best = R2 /\ rest = [R1]) /\
       ((0 <= n)%Z -> best = R1 /\ rest = [R2])) /\
    (forall R1 R2 n, fired = [R1; R2] ->
       lookup "priority" R1 = None -> lookup "priority" R2 = Some (VInt n) ->
       ((0 < n)%Z -> best = R2 /\ rest = [R1]) /\
       ((n <= 0)%Z -> best = R1 /\ rest = [R2])) /\
    run_rules facts (map with_default_priority rules) =
      Ok (decision, map with_default_priority (best :: rest)) /\
    (lookup "action" best = None ->
     decision = VDict [("decision", VStr "NO_ACTION"); ("reason", VStr "-")]).
Proof.
  intros Hf Hne Hnum.
  assert (Hn : Forall numeric_priority fired).
  { eapply Forall_impl; [ | exact Hnum]. exact numeric_declared. }
  pose proof (run_rules_numeric facts rules fired Hf Hn) as Hrun.
  pose proof (sort_num_perm priority fired) as Hperm.
  pose proof (sort_num_sorted priority fired) as Hsort.
  change (num_key priority) with prio in Hperm, Hsort.
  assert (Hf' : fired_rules facts (map with_default_priority rules) =
                Ok (map with_default_priority fired)).
  { rewrite fired_rules_default_priority, Hf. reflexivity. }
  assert (Hn' : Forall numeric_priority (map with_default_priority fired)).
  { apply Forall_map. eapply Forall_impl; [ | exact Hn].
    intros r Hr. unfold numeric_priority.
    rewrite priority_default_priority. exact Hr. }
  pose proof (run_rules_numeric facts _ _ Hf' Hn') as Hrun'.
  rewrite (sort_num_map prio with_default_priority fired
             prio_default_priority) in Hrun'.
  destruct (sort_num prio fired) as [ | best rest] eqn:E.
  - apply Permutation_sym, Permutation_nil in Hperm. contradiction.
  - exists (dict_get best "action" NO_ACTION), best, rest.
    split; [exact Hrun | ].
    split; [exact Hperm | ].
    split; [exact (sorted_declared _ Hsort) | ].
    split.
    { intros R1 R2 n -> H1 H2.
      rewrite sort_num_pair, (prio_of_int R1 n H1), (prio_of_missing R2 H2)
        in E.
      rewrite Qlt_bool_inject_Z in E.
      split; intros Hcmp.
      - apply Z.ltb_lt in Hcmp. rewrite Hcmp in E.
        injection E as <- <-. split; reflexivity.
      - apply Z.ltb_ge in Hcmp. rewrite Hcmp in E.
        injection E as <- <-. split; reflexivity. }
    split.
    { intros R1 R2 n -> H1 H2.
      rewrite sort_num_pair, (prio_of_missing R1 H1), (prio_of_int R2 n H2)
        in E.
      rewrite Qlt_bool_inject_Z in E.
      split; intros Hcmp.
      - apply Z.ltb_lt in Hcmp. rewrite Hcmp in E.
        injection E as <- <-. split; reflexivity.
      - apply Z.ltb_ge in Hcmp. rewrite Hcmp in E.
        injection E as <- <-. split; reflexivity. }
    split.
    { rewrite Hrun'. cbn [map].
      rewrite dict_get_default_priority by discriminate. reflexivity. }
    intros Ha. unfold dict_get. rewrite Ha. reflexivity.
Qed.

Lemma run_rules_defaults_witness :
  fired_rules scenario_4 [negative_rule; bare_rule] =
    Ok [negative_rule; bare_rule] /\
  [negative_rule; bare_rule] <> [] /\
  Forall priority_is_number [negative_rule; bare_rule] /\
  run_rules scenario_4 [negative_rule; bare_rule] =
    Ok (VDict [("decision", VStr "NO_ACTION"); ("reason", VStr "-")],
        [bare_rule; negative_rule]).
Proof.
  assert (H1 : fired_rules scenario_4 [negative_rule; bare_rule] =
               Ok [negative_rule; bare_rule])
    by (vm_compute; reflexivity).
  assert (H2 : [negative_rule; bare_rule] <> [])
    by (intros H; discriminate H).
  assert (H3 : Forall priority_is_number [negative_rule; bare_rule])
    by (repeat constructor).
  split; [exact H1 | ]. split; [exact H2 | ]. split; [exact H3 | ].
  destruct (run_rules_defaults scenario_4 [negative_rule; bare_rule]
              [negative_rule; bare_rule] H1 H2 H3)
    as [decision [best [rest [Hrun [_ [_ [Hpair [_ [_ Hact]]]]]]]]].
  destruct (Hpair negative_rule bare_rule (-1)%Z eq_refl eq_refl eq_refl)
    as [Hneg _].
  destruct (Hneg eq_refl) as [Hb Hr].
  rewrite Hb in Hact. rewrite Hb, Hr, (Hact eq_refl) in Hrun.
  exact Hrun.
Defined.

(** C6.  For a rule whose condition sequence is [conds] (the empty sequence
    when the rule has no [conditions] field), [rule_matches] is true exactly
    when every condition of [conds] evaluates to true; for the empty
    sequence it is true. *)
Theorem rule_matches_conjunction (facts rule : dict) (conds : list value) :
  (lookup "conditions" rule = None /\ conds = []) \/
  lookup "conditions" rule = Some (VList conds) ->
  (rule_matches facts rule = Ok true <->
   Forall (fun c => evaluate_condition facts c = Ok true) conds) /\
  (conds = [] -> rule_matches facts rule = Ok true).
Proof.
  intros H.
  assert (Hm : rule_matches facts rule = all_conditions facts conds).
  { unfold rule_matches, dict_get.
    destruct H as [[H ->] | H]; rewrite H; reflexivity. }
  rewrite Hm. split.
  - apply all_conditions_true.
  - intros ->. reflexivity.
Qed.

Lemma rule_matches_conjunction_witness :
  ((lookup "conditions" serious_disciplinary = None /\
    [condition "disciplinary_actions" ">=" (VInt 2)] = []) \/
   lookup "conditions" serious_disciplinary =
     Some (VList [condition "disciplinary_actions" ">=" (VInt 2)])) /\
  ((rule_matches scenario_4 serious_disciplinary = Ok true <->
    Forall (fun c => evaluate_condition scenario_4 c = Ok true)
           [condition "disciplinary_actions" ">=" (VInt 2)]) /\
   ([condition "disciplinary_actions" ">=" (VInt 2)] = [] ->
    rule_matches scenario_4 serious_disciplinary = Ok true)).
Proof.
  assert (H : (lookup "conditions" serious_disciplinary = None /\
               [condition "disciplinary_actions" ">=" (VInt 2)] = []) \/
              lookup "conditions" serious_disciplinary =
                Some (VList [condition "disciplinary_actions" ">=" (VInt 2)]))
    by (right; reflexivity).
  exact (conj H (rule_matches_conjunction scenario_4 serious_disciplinary
                   [condition "disciplinary_actions" ">=" (VInt 2)] H)).
Defined.



(** C8.  On the facts of scenario 4 and the default rules: the first three
    conditions of "Top merit candidate" hold and its condition
    [disciplinary_actions == 0] fails, so the rule does not fire; "Serious
    disciplinary record", of priority 90, fires; the decision is [REJECT];
    the fired list is that rule followed by "Need-based review", and no rule
    in it awards a scholarship. *)
Theorem scenario_4_rejects :
  evaluate_condition scenario_4 (condition "cgpa" ">=" (VFloat float_3_7))
    = Ok true /\
  evaluate_condition scenario_4 (condition "co_curricular_score" ">=" (VInt 80))
    = Ok true /\
  evaluate_condition scenario_4 (condition "family_income" "<=" (VInt 8000))
    = Ok true /\
  evaluate_condition scenario_4 (condition "disciplinary_actions" "==" (VInt 0))
    = Ok false /\
  rule_matches scenario_4 top_merit = Ok false /\
  rule_matches scenario_4 serious_disciplinary = Ok true /\
  priority serious_disciplinary = VInt 90 /\
  run_rules scenario_4 DEFAULT_RULES =
    Ok (action "REJECT" "Too many disciplinary records",
        [serious_disciplinary; need_based]) /\
  existsb is_award [serious_disciplinary; need_based] = false /\
  is_award top_merit = true /\ is_award good_candidate = true.
Proof.
  repeat split; vm_compute; reflexivity.
Qed.

(** ** Equality across types *)

Lemma py_eqb_scalar_types (a v : value) (s t : scalar_type) :
  scalar_type_of a = Some s -> scalar_type_of v = Some t -> s <> t ->
  py_eqb a v = false.
Proof.
  intros Ha Hv Hst.
  destruct a; simpl in Ha; try discriminate;
    destruct v; simpl in Hv; try discriminate;
    try reflexivity;
    injection Ha as <-; injection Hv as <-; contradiction.
Qed.

(** C9.  For a field that is among the facts, [!=] evaluates to the negation
    of value equality and [==] to value equality, whatever the types of the
    fact and the literal: neither raises.  For scalars of different types (a
    number and a string, say) the values are unequal, so [!=] evaluates to
    true and [==] to false. *)
Theorem ne_across_types (facts : dict) (f : string) (a v : value) :
  lookup f facts = Some a ->
  evaluate_condition facts (condition f "!=" v) = Ok (negb (py_eqb a v)) /\
  evaluate_condition facts (condition f "==" v) = Ok (py_eqb a v) /\
  (forall s t,
      scalar_type_of a = Some s -> scalar_type_of v = Some t -> s <> t ->
      evaluate_condition facts (condition f "!=" v) = Ok true /\
      evaluate_condition facts (condition f "==" v) = Ok false).
Proof.
  intros Hf.
  assert (Hne : evaluate_condition facts (condition f "!=" v) =
                Ok (negb (py_eqb a v)))
    by (rewrite (evaluate_condition_field facts f "!=" v a _ Hf eq_refl);
        reflexivity).
  assert (Heq : evaluate_condition facts (condition f "==" v) =
                Ok (py_eqb a v))
    by (rewrite (evaluate_condition_field facts f "==" v a _ Hf eq_refl);
        reflexivity).
  split; [exact Hne | ]. split; [exact Heq | ].
  intros s t Hs Ht Hst. rewrite Hne, Heq.
  rewrite (py_eqb_scalar_types a v s t Hs Ht Hst). split; reflexivity.
Qed.

Lemma ne_across_types_witness :
  lookup "cgpa" scenario_4 = Some (VFloat float_3_9) /\
  (evaluate_condition scenario_4 (condition "cgpa" "!=" (VStr "high")) =
     Ok (negb (py_eqb (VFloat float_3_9) (VStr "high"))) /\
   evaluate_condition scenario_4 (condition "cgpa" "==" (VStr "high")) =
     Ok (py_eqb (VFloat float_3_9) (VStr "high")) /\
   (forall s t,
       scalar_type_of (VFloat float_3_9) = Some s ->
       scalar_type_of (VStr "high") = Some t -> s <> t ->
       evaluate_condition scenario_4 (condition "cgpa" "!=" (VStr "high")) =
         Ok true /\
       evaluate_condition scenario_4 (condition "cgpa" "==" (VStr "high")) =
         Ok false)).
Proof.
  assert (H : lookup "cgpa" scenario_4 = Some (VFloat float_3_9))
    by reflexivity.
  exact (conj H (ne_across_types scenario_4 "cgpa" _ (VStr "high") H)).
Defined.

(** C10.  For a field that is among the facts: when the membership test of
    the fact in the literal returns, [in] evaluates to its outcome and
    [not_in] to the negation; when it raises, both evaluate to false. *)
Theorem in_not_in_complement (facts : dict) (f : string) (a v : value) :
  lookup f facts = Some a ->
  (forall b, py_in a v = Ok b ->
     evaluate_condition facts (condition f "in" v) = Ok b /\
     evaluate_condition facts (condition f "not_in" v) = Ok (negb b)) /\
  (forall e, py_in a v = Raise e ->
     evaluate_condition facts (condition f "in" v) = Ok false /\
     evaluate_condition facts (condition f "not_in" v) = Ok false).
Proof.
  intros Hf.
  rewrite (evaluate_condition_field facts f "in" v a _ Hf eq_refl).
  rewrite (evaluate_condition_field facts f "not_in" v a _ Hf eq_refl).
  unfold py_not_in.
  split; intros x Hx; rewrite Hx; split; reflexivity.
Qed.

Lemma in_not_in_complement_witness :
  lookup "family_income" scenario_4 = Some (VInt 2000) /\
  ((forall b, py_in (VInt 2000) (VList [VInt 1000; VFloat (2000 # 1)]) = Ok b ->
      evaluate_condition scenario_4
        (condition "family_income" "in" (VList [VInt 1000; VFloat (2000 # 1)]))
        = Ok b /\
      evaluate_condition scenario_4
        (condition "family_income" "not_in"
           (VList [VInt 1000; VFloat (2000 # 1)]))
        = Ok (negb b)) /\
   (forall e, py_in (VInt 2000) (VList [VInt 1000; VFloat (2000 # 1)]) = Raise e ->
      evaluate_condition scenario_4
        (condition "family_income" "in" (VList [VInt 1000; VFloat (2000 # 1)]))
        = Ok false /\
      evaluate_condition scenario_4
        (condition "family_income" "not_in"
           (VList [VInt 1000; VFloat (2000 # 1)]))
        = Ok false)).
Proof.
  assert (H : lookup "family_income" scenario_4 = Some (VInt 2000))
    by reflexivity.
  exact (conj H (in_not_in_complement scenario_4 "family_income" _ _ H)).
Defined.


(** * Further properties of the engine *)

(** ** The sort on arbitrary keys *)

Lemma insert_desc_perm {A : Type} (key : A -> value) (x : A) (l l' : list A) :
  insert_desc key x l = Ok l' -> Permutation (x :: l) l'.
Proof.
  revert l'. induction l as [ | y ys IH]; simpl; intros l' H.
  - injection H as <-. apply Permutation_refl.
  - apply bind_Ok in H. destruct H as [b [_ H]]. destruct b.
    + apply bind_Ok in H. destruct H as [r [Hr H]]. injection H as <-.
      eapply perm_trans; [apply perm_swap | ].
      apply perm_skip. apply IH. exact Hr.
    + injection H as <-. apply Permutation_refl.
Qed.

Lemma sorted_reverse_perm {A : Type} (key : A -> value) (l l' : list A) :
  sorted_reverse key l = Ok l' -> Permutation l l'.
Proof.
  revert l'. induction l as [ | x xs IH]; simpl; intros l' H.
  - injection H as <-. apply perm_nil.
  - apply bind_Ok in H. destruct H as [s [Hs H]].
    eapply perm_trans; [apply perm_skip, IH, Hs | ].
    eapply insert_desc_perm. exact H.
Qed.

Lemma fired_rules_filter (facts : dict) (rules fired : list dict) :
  fired_rules facts rules = Ok fired -> fired = filter (matchesb facts) rules.
Proof.
  revert fired. induction rules as [ | r rs IH]; simpl; intros fired H.
  - injection H as <-. reflexivity.
  - apply bind_Ok in H. destruct H as [b [Hb H]].
    apply bind_Ok in H. destruct H as [rest [Hrest H]].
    injection H as <-. unfold matchesb at 1. rewrite Hb.
    rewrite <- (IH rest Hrest). destruct b; reflexivity.
Qed.

Lemma matchesb_true (facts r : dict) :
  matchesb facts r = true <-> rule_matches facts r = Ok true.
Proof.
  unfold matchesb. destruct (rule_matches facts r) as [[ | ] | e];
    split; intros H; try reflexivity; try discriminate.
Qed.

(** What a returned run consists of. *)
Lemma run_rules_Ok (facts : dict) (rules : list dict) (d : value)
      (fired : list dict) :
  run_rules facts rules = Ok (d, fired) ->
  exists fired0,
    fired_rules facts rules = Ok fired0 /\
    Permutation fired0 fired /\
    d = decision_for fired.
Proof.
  unfold run_rules. intros H.
  apply bind_Ok in H. destruct H as [fired0 [Hf H]].
  exists fired0. split; [exact Hf | ].
  destruct fired0 as [ | r rs].
  - injection H as <- <-. split; [apply perm_nil | reflexivity].
  - apply bind_Ok in H. destruct H as [s [Hs H]].
    destruct s as [ | best rest]; [discriminate | ].
    injection H as <- <-.
    split; [exact (sorted_reverse_perm _ _ _ Hs) | reflexivity].
Qed.

(** X1.  Whenever [run_rules] returns, its fired list is a rearrangement
    of the input rules that match, in which every rule is an input rule that
    matches, and the decision is [NO_RULE] for an empty fired list and
    the action of the first fired rule ([NO_ACTION] when it has none)
    otherwise. *)
Theorem run_rules_sound (facts : dict) (rules : list dict) (d : value)
        (fired : list dict) :
  run_rules facts rules = Ok (d, fired) ->
  Permutation (filter (matchesb facts) rules) fired /\
  Forall (fun r => In r rules /\ rule_matches facts r = Ok true) fired /\
  (fired = [] -> d = NO_RULE) /\
  (forall best rest, fired = best :: rest ->
     d = dict_get best "action" NO_ACTION).
Proof.
  intros H. destruct (run_rules_Ok _ _ _ _ H) as [fired0 [Hf [Hp Hd]]].
  rewrite (fired_rules_filter _ _ _ Hf) in Hp.
  split; [exact Hp | ].
  split.
  - eapply Permutation_Forall; [exact Hp | ].
    apply Forall_forall. intros r Hr. apply filter_In in Hr.
    split; [apply Hr | apply matchesb_true, Hr].
  - split; [intros -> | intros best rest ->]; exact Hd.
Qed.

Lemma run_rules_sound_witness :
  run_rules scenario_4 DEFAULT_RULES =
    Ok (action "REJECT" "Too many disciplinary records",
        [serious_disciplinary; need_based]) /\
  (Permutation (filter (matchesb scenario_4) DEFAULT_RULES)
     [serious_disciplinary; need_based] /\
   Forall (fun r => In r DEFAULT_RULES /\ rule_matches scenario_4 r = Ok true)
     [serious_disciplinary; need_based] /\
   ([serious_disciplinary; need_based] = [] ->
    action "REJECT" "Too many disciplinary records" = NO_RULE) /\
   (forall best rest, [serious_disciplinary; need_based] = best :: rest ->
      action "REJECT" "Too many disciplinary records" =
        dict_get best "action" NO_ACTION)).
Proof.
  assert (H : run_rules scenario_4 DEFAULT_RULES =
              Ok (action "REJECT" "Too many disciplinary records",
                  [serious_disciplinary; need_based]))
    by (vm_compute; reflexivity).
  exact (conj H (run_rules_sound _ _ _ _ H)).
Defined.

(** ** Priorities that cannot be ordered *)

Lemma py_compare_unorderable (op : cmpop) (a b : value) :
  unorderable a \/ unorderable b -> py_compare op a b = Raise TypeError.
Proof.
  intros [[-> | [d ->]] | [-> | [d ->]]]; try reflexivity;
    destruct a; reflexivity.
Qed.

Lemma sorted_reverse_unorderable {A : Type} (key : A -> value) (l : list A) :
  (2 <= List.length l)%nat ->
  (exists r, In r l /\ unorderable (key r)) ->
  exists e, sorted_reverse key l = Raise e.
Proof.
  induction l as [ | x xs IH]; simpl; intros Hlen [r [Hin Hr]].
  - contradiction.
  - destruct (sorted_reverse key xs) as [s | e] eqn:Es; [ | exists e; reflexivity].
    cbn [bind].
    pose proof (sorted_reverse_perm key xs s Es) as Hp.
    destruct s as [ | y ys].
    { apply Permutation_sym, Permutation_nil in Hp. subst xs.
      simpl in Hlen. lia. }
    destruct Hin as [-> | Hin].
    + cbn [insert_desc].
      rewrite (py_compare_unorderable Lt (key r) (key y) (or_introl Hr)).
      cbn [bind]. eexists; reflexivity.
    + destruct xs as [ | x1 [ | x2 xs']].
      * contradiction.
      * simpl in Es. injection Es as <- <-.
        destruct Hin as [-> | []].
        cbn [insert_desc].
        rewrite (py_compare_unorderable Lt (key x) (key r) (or_intror Hr)).
        cbn [bind]. eexists; reflexivity.
      * destruct IH as [e He];
          [simpl; lia | exists r; split; assumption | discriminate He].
Qed.

(** X2.  The priorities are compared only when two or more rules match.
    When exactly one rule matches, [run_rules] returns its action whatever
    its priority is; when two or more match and one of them has [null] or
    an object for priority, [run_rules] raises. *)
Theorem run_rules_unorderable_priority (facts : dict) (rules fired : list dict)
        (r : dict) :
  fired_rules facts rules = Ok fired ->
  In r fired ->
  unorderable (priority r) ->
  (fired = [r] ->
   run_rules facts rules = Ok (dict_get r "action" NO_ACTION, [r])) /\
  ((2 <= List.length fired)%nat -> exists e, run_rules facts rules = Raise e).
Proof.
  intros Hf Hin Hr. unfold run_rules. rewrite Hf. cbn [bind]. split.
  - intros ->. reflexivity.
  - intros Hlen.
    destruct (sorted_reverse_unorderable priority fired Hlen
                (ex_intro _ r (conj Hin Hr))) as [e He].
    destruct fired as [ | x xs]; [simpl in Hlen; lia | ].
    rewrite He. exists e. reflexivity.
Qed.

Lemma run_rules_unorderable_priority_witness :
  fired_rules scenario_4 [need_based; null_priority_rule] =
    Ok [need_based; null_priority_rule] /\
  In null_priority_rule [need_based; null_priority_rule] /\
  unorderable (priority null_priority_rule) /\
  (([need_based; null_priority_rule] = [null_priority_rule] ->
    run_rules scenario_4 [need_based; null_priority_rule] =
      Ok (dict_get null_priority_rule "action" NO_ACTION,
          [null_priority_rule])) /\
   ((2 <= List.length [need_based; null_priority_rule])%nat ->
    exists e, run_rules scenario_4 [need_based; null_priority_rule] = Raise e)).
Proof.
  assert (H1 : fired_rules scenario_4 [need_based; null_priority_rule] =
               Ok [need_based; null_priority_rule])
    by (vm_compute; reflexivity).
  assert (H2 : In null_priority_rule [need_based; null_priority_rule])
    by (right; left; reflexivity).
  assert (H3 : unorderable (priority null_priority_rule))
    by (left; reflexivity).
  exact (conj H1 (conj H2 (conj H3
           (run_rules_unorderable_priority scenario_4 _ _ _ H1 H2 H3)))).
Defined.

(** X3.  [rule_matches] stops at the first condition that is false: the
    conditions behind it are not evaluated, so one that would raise there
    does no harm.  A condition that raises before any false one makes
    [rule_matches] raise. *)
Theorem rule_matches_short_circuit (facts rule : dict) (pre post : list value)
        (c : value) :
  lookup "conditions" rule = Some (VList (pre ++ c :: post)) ->
  Forall (fun c' => evaluate_condition facts c' = Ok true) pre ->
  (evaluate_condition facts c = Ok false -> rule_matches facts rule = Ok false) /\
  (forall e, evaluate_condition facts c = Raise e ->
             rule_matches facts rule = Raise e).
Proof.
  intros Hc Hpre.
  assert (Hm : rule_matches facts rule =
               all_conditions facts (pre ++ c :: post)).
  { unfold rule_matches, dict_get. rewrite Hc. reflexivity. }
  rewrite Hm. clear Hm Hc.
  induction Hpre as [ | p ps Hp Hps IH]; simpl.
  - split; [intros -> | intros e ->]; reflexivity.
  - rewrite Hp. exact IH.
Qed.

Lemma rule_matches_short_circuit_witness :
  lookup "conditions" guarded_rule =
    Some (VList ([] ++ condition "cgpa" "<" (VInt 1) :: [list_field_condition])) /\
  Forall (fun c' => evaluate_condition scenario_4 c' = Ok true) [] /\
  ((evaluate_condition scenario_4 (condition "cgpa" "<" (VInt 1)) = Ok false ->
    rule_matches scenario_4 guarded_rule = Ok false) /\
   (forall e,
      evaluate_condition scenario_4 (condition "cgpa" "<" (VInt 1)) = Raise e ->
      rule_matches scenario_4 guarded_rule = Raise e)).
Proof.
  assert (H1 : lookup "conditions" guarded_rule =
               Some (VList ([] ++ condition "cgpa" "<" (VInt 1)
                               :: [list_field_condition])))
    by reflexivity.
  assert (H2 : Forall (fun c' => evaluate_condition scenario_4 c' = Ok true) [])
    by constructor.
  exact (conj H1 (conj H2
           (rule_matches_short_circuit scenario_4 guarded_rule [] _ _ H1 H2))).
Defined.

(** ** Shapes of [conditions] that are not lists of lists *)

Lemma py_len_unsized (v : value) : unsized v = true -> py_len v = Raise TypeError.
Proof.
  destruct v; simpl; intros H; try discriminate; reflexivity.
Qed.

Lemma all_conditions_characters (facts : dict) (l : list ascii) :
  all_conditions facts (map (fun c => VStr (String c EmptyString)) l) =
  Ok (match l with [] => true | _ :: _ => false end).
Proof.
  destruct l as [ | c l]; reflexivity.
Qed.

(** X4.  What [rule_matches] does when [conditions] is not a list of
    lists: iterating [null], a boolean or a number raises [TypeError]; a
    string is iterated by characters, none of which has length three, so the
    rule matches only when the string is empty; a list whose first item is
    [null], a boolean or a number raises [TypeError] at [len]. *)
Theorem rule_matches_odd_conditions (facts rule : dict) (v : value) :
  lookup "conditions" rule = Some v ->
  (unsized v = true -> rule_matches facts rule = Raise TypeError) /\
  (forall s, v = VStr s -> rule_matches facts rule = Ok (s =? "")%string) /\
  (forall c rest, v = VList (c :: rest) -> unsized c = true ->
                  rule_matches facts rule = Raise TypeError).
Proof.
  intros Hv. unfold rule_matches, dict_get. rewrite Hv.
  split; [ | split].
  - intros Hu. destruct v; simpl in Hu; try discriminate; reflexivity.
  - intros s ->. cbn [py_iter bind]. rewrite all_conditions_characters.
    destruct s; reflexivity.
  - intros c rest -> Hc. cbn [py_iter bind all_conditions].
    unfold evaluate_condition. rewrite (py_len_unsized c Hc). reflexivity.
Qed.

Lemma rule_matches_odd_conditions_witness :
  lookup "conditions" number_conditions_rule = Some (VInt 5) /\
  ((unsized (VInt 5) = true ->
    rule_matches scenario_4 number_conditions_rule = Raise TypeError) /\
   (forall s, VInt 5 = VStr s ->
      rule_matches scenario_4 number_conditions_rule = Ok (s =? "")%string) /\
   (forall c rest, VInt 5 = VList (c :: rest) -> unsized c = true ->
      rule_matches scenario_4 number_conditions_rule = Raise TypeError)).
Proof.
  assert (H : lookup "conditions" number_conditions_rule = Some (VInt 5))
    by reflexivity.
  exact (conj H (rule_matches_odd_conditions scenario_4 _ _ H)).
Defined.

(** ** When [evaluate_condition] raises *)

Lemma find_unhashable {A : Type} (d : list (string * A)) (k : value) :
  hashable k = false -> find d k = Raise TypeError.
Proof.
  destruct k; simpl; intros H; try discriminate; reflexivity.
Qed.

Lemma try_except_false_Ok (r : result bool) (e : exc) :
  try_except_false r <> Raise e.
Proof.
  destruct r; simpl; discriminate.
Qed.

(** X5.  On a condition that is a list, [evaluate_condition] raises exactly
    when the list has three items and either the field is a list or an
    object, or the field is among the facts and the operator is a list or
    an object; the exception is then [TypeError].  In every other case it
    returns a boolean. *)
Theorem evaluate_condition_raises_iff (facts : dict) (l : list value) :
  ((exists e, evaluate_condition facts (VList l) = Raise e) <->
   exists field op v,
     l = [field; op; v] /\
     (hashable field = false \/
      ((exists a, find facts field = Ok (Some a)) /\ hashable op = false))) /\
  (forall e, evaluate_condition facts (VList l) = Raise e -> e = TypeError).
Proof.
  destruct (Nat.eqb (List.length l) 3) eqn:E.
  - apply Nat.eqb_eq in E.
    destruct l as [ | field [ | op [ | v [ | ? ?]]]]; try discriminate.
    rewrite (evaluate_condition_triple facts (VList [field; op; v])
               field op v eq_refl).
    destruct (hashable field) eqn:Hf.
    + destruct (find_hashable facts field Hf) as [x Hx]. rewrite Hx.
      cbn [bind]. destruct x as [a | ].
      * destruct (hashable op) eqn:Hop.
        -- destruct (find_hashable OPS op Hop) as [f ->]. cbn [bind].
           assert (Hno : forall e,
                      match f with
                      | Some f0 => try_except_false (f0 a v)
                      | None => Ok false
                      end <> Raise e).
           { intros e. destruct f; [apply try_except_false_Ok | discriminate]. }
           split.
           ++ split.
              ** intros [e He]. exfalso. exact (Hno e He).
              ** intros [f' [o' [v' [Hl [Hc | [_ Hc]]]]]];
                   injection Hl as <- <- <-; congruence.
           ++ intros e He. exfalso. exact (Hno e He).
        -- rewrite (find_unhashable OPS op Hop). cbn [bind]. split.
           ++ split; [intros _ | intros _; eauto].
              exists field, op, v. split; [reflexivity | ].
              right. split; [eauto | exact Hop].
           ++ intros e He. injection He as <-. reflexivity.
      * split.
        -- split.
           ++ intros [e He]. discriminate.
           ++ intros [f' [o' [v' [Hl [Hc | [[a Ha] _]]]]]];
                injection Hl as <- <- <-; congruence.
        -- intros e He. discriminate.
    + rewrite (find_unhashable facts field Hf). cbn [bind]. split.
      * split; [intros _ | intros _; eauto].
        exists field, op, v. split; [reflexivity | left; exact Hf].
      * intros e He. injection He as <-. reflexivity.
  - assert (Hev : evaluate_condition facts (VList l) = Ok false).
    { unfold evaluate_condition. cbn [py_len bind]. rewrite E. reflexivity. }
    rewrite Hev. split.
    + split.
      * intros [e He]. discriminate.
      * intros [f' [o' [v' [-> _]]]]. discriminate.
    + intros e He. discriminate.
Qed.

(** ** The ordering operators *)

Lemma py_compare_scalar_types (op : cmpop) (a v : value) (s t : scalar_type) :
  scalar_type_of a = Some s -> scalar_type_of v = Some t ->
  s <> t \/ s = TNone ->
  py_compare op a v = Raise TypeError.
Proof.
  intros Ha Hv H.
  destruct a; simpl in Ha; try discriminate;
    destruct v; simpl in Hv; try discriminate;
    try reflexivity;
    injection Ha as <-; injection Hv as <-;
    destruct H as [H | H]; solve [contradiction | discriminate].
Qed.

(** X6.  For a field that is among the facts, when the fact and the literal
    are scalars of different types (a number and a string, say), or both are
    [null], the four ordering operators all evaluate to false: the
    comparison raises and the condition fails closed. *)
Theorem ordering_across_types (facts : dict) (f : string) (a v : value)
        (s t : scalar_type) :
  lookup f facts = Some a ->
  scalar_type_of a = Some s -> scalar_type_of v = Some t ->
  s <> t \/ s = TNone ->
  Forall (fun op => evaluate_condition facts (condition f op v) = Ok false)
         ["<"; "<="; ">"; ">="].
Proof.
  intros Hf Ha Hv H.
  repeat constructor.
  - rewrite (evaluate_condition_field facts f "<" v a _ Hf eq_refl).
    rewrite (py_compare_scalar_types Lt a v s t Ha Hv H). reflexivity.
  - rewrite (evaluate_condition_field facts f "<=" v a _ Hf eq_refl).
    rewrite (py_compare_scalar_types Le a v s t Ha Hv H). reflexivity.
  - rewrite (evaluate_condition_field facts f ">" v a _ Hf eq_refl).
    rewrite (py_compare_scalar_types Gt a v s t Ha Hv H). reflexivity.
  - rewrite (evaluate_condition_field facts f ">=" v a _ Hf eq_refl).
    rewrite (py_compare_scalar_types Ge a v s t Ha Hv H). reflexivity.
Qed.

Lemma ordering_across_types_witness :
  lookup "cgpa" scenario_4 = Some (VFloat float_3_9) /\
  scalar_type_of (VFloat float_3_9) = Some TNumber /\
  scalar_type_of (VStr "3.5") = Some TStr /\
  (TNumber <> TStr \/ TNumber = TNone) /\
  Forall (fun op =>
            evaluate_condition scenario_4 (condition "cgpa" op (VStr "3.5"))
              = Ok false)
         ["<"; "<="; ">"; ">="].
Proof.
  assert (H1 : lookup "cgpa" scenario_4 = Some (VFloat float_3_9))
    by reflexivity.
  assert (H2 : scalar_type_of (VFloat float_3_9) = Some TNumber)
    by reflexivity.
  assert (H3 : scalar_type_of (VStr "3.5") = Some TStr) by reflexivity.
  assert (H4 : TNumber <> TStr \/ TNumber = TNone)
    by (left; intros H; discriminate H).
  exact (conj H1 (conj H2 (conj H3 (conj H4
           (ordering_across_types scenario_4 "cgpa" _ _ _ _ H1 H2 H3 H4))))).
Defined.

Lemma py_eqb_num (a v : value) (p q : Q) :
  num_of a = Some p -> num_of v = Some q -> py_eqb a v = Qeq_bool p q.
Proof.
  intros Ha Hv.
  destruct a; simpl in Ha; try discriminate;
    destruct v; simpl in Hv; try discriminate;
    simpl; injection Ha as <-; injection Hv as <-; reflexivity.
Qed.

Lemma Q_trichotomy_bool (p q : Q) :
  exactly_one (Qlt_bool p q) (Qeq_bool p q) (Qlt_bool q p).
Proof.
  unfold exactly_one.
  destruct (Q_dec p q) as [[Hlt | Hgt] | Heq].
  - left. split; [apply Qlt_bool_iff; exact Hlt | ]. split.
    + destruct (Qeq_bool p q) eqn:E; [ | reflexivity].
      apply Qeq_bool_iff in E. rewrite E in Hlt.
      exfalso. exact (Qlt_irrefl _ Hlt).
    + apply Qlt_bool_false. apply Qlt_le_weak. exact Hlt.
  - right. right. split; [ | split].
    + apply Qlt_bool_false. apply Qlt_le_weak. exact Hgt.
    + destruct (Qeq_bool p q) eqn:E; [ | reflexivity].
      apply Qeq_bool_iff in E. rewrite E in Hgt.
      exfalso. exact (Qlt_irrefl _ Hgt).
    + apply Qlt_bool_iff. exact Hgt.
  - right. left. split; [ | split].
    + apply Qlt_bool_false. rewrite Heq. apply Qle_refl.
    + apply Qeq_bool_iff. exact Heq.
    + apply Qlt_bool_false. rewrite Heq. apply Qle_refl.
Qed.

Lemma Qle_bool_lt_eq (p q : Q) :
  Qle_bool p q = Qlt_bool p q || Qeq_bool p q.
Proof.
  destruct (Q_trichotomy_bool p q) as [[H1 [H2 H3]] | [[H1 [H2 H3]] | [H1 [H2 H3]]]];
    rewrite H1, H2; simpl.
  - apply Qle_bool_iff. apply Qlt_le_weak. apply Qlt_bool_iff. exact H1.
  - apply Qle_bool_iff. apply Qlt_bool_false. exact H3.
  - unfold Qlt_bool in H3. apply negb_true_iff in H3. exact H3.
Qed.

(** X7.  For a field that is among the facts, when the fact and the literal
    are numbers (of type [int], [float] or [bool], in any combination),
    exactly one of [<], [==] and [>] evaluates to true, [<=] is [<] or [==],
    [>=] is [>] or [==], and [!=] is [<] or [>]. *)
Theorem numeric_trichotomy (facts : dict) (f : string) (a v : value) (p q : Q) :
  lookup f facts = Some a ->
  num_of a = Some p -> num_of v = Some q ->
  exists lt eq gt,
    evaluate_condition facts (condition f "<" v) = Ok lt /\
    evaluate_condition facts (condition f "==" v) = Ok eq /\
    evaluate_condition facts (condition f ">" v) = Ok gt /\
    evaluate_condition facts (condition f "<=" v) = Ok (lt || eq) /\
    evaluate_condition facts (condition f ">=" v) = Ok (gt || eq) /\
    evaluate_condition facts (condition f "!=" v) = Ok (lt || gt) /\
    exactly_one lt eq gt.
Proof.
  intros Hf Ha Hv.
  exists (Qlt_bool p q), (Qeq_bool p q), (Qlt_bool q p).
  rewrite (evaluate_condition_field facts f "<" v a _ Hf eq_refl).
  rewrite (evaluate_condition_field facts f "==" v a _ Hf eq_refl).
  rewrite (evaluate_condition_field facts f ">" v a _ Hf eq_refl).
  rewrite (evaluate_condition_field facts f "<=" v a _ Hf eq_refl).
  rewrite (evaluate_condition_field facts f ">=" v a _ Hf eq_refl).
  rewrite (evaluate_condition_field facts f "!=" v a _ Hf eq_refl).
  rewrite !(py_compare_num _ a v p q Ha Hv), (py_eqb_num a v p q Ha Hv).
  cbn [try_except_false cmp_num].
  pose proof (Q_trichotomy_bool p q) as Htri.
  repeat split; try exact Htri.
  - f_equal. apply Qle_bool_lt_eq.
  - f_equal. rewrite (Qle_bool_lt_eq q p), (Qeq_bool_comm q p). reflexivity.
  - f_equal.
    destruct Htri as [[H1 [H2 H3]] | [[H1 [H2 H3]] | [H1 [H2 H3]]]];
      rewrite H1, H2, H3; reflexivity.
Qed.

Lemma numeric_trichotomy_witness :
  lookup "family_income" scenario_4 = Some (VInt 2000) /\
  num_of (VInt 2000) = Some (inject_Z 2000) /\
  num_of (VFloat (4000 # 2)) = Some (4000 # 2) /\
  exists lt eq gt,
    evaluate_condition scenario_4
      (condition "family_income" "<" (VFloat (4000 # 2))) = Ok lt /\
    evaluate_condition scenario_4
      (condition "family_income" "==" (VFloat (4000 # 2))) = Ok eq /\
    evaluate_condition scenario_4
      (condition "family_income" ">" (VFloat (4000 # 2))) = Ok gt /\
    evaluate_condition scenario_4
      (condition "family_income" "<=" (VFloat (4000 # 2))) = Ok (lt || eq) /\
    evaluate_condition scenario_4
      (condition "family_income" ">=" (VFloat (4000 # 2))) = Ok (gt || eq) /\
    evaluate_condition scenario_4
      (condition "family_income" "!=" (VFloat (4000 # 2))) = Ok (lt || gt) /\
    exactly_one lt eq gt.
Proof.
  assert (H1 : lookup "family_income" scenario_4 = Some (VInt 2000))
    by reflexivity.
  assert (H2 : num_of (VInt 2000) = Some (inject_Z 2000)) by reflexivity.
  assert (H3 : num_of (VFloat (4000 # 2)) = Some (4000 # 2)) by reflexivity.
  exact (conj H1 (conj H2 (conj H3
           (numeric_trichotomy scenario_4 "family_income" _ _ _ _ H1 H2 H3)))).
Defined.

(** ** The default rules on arbitrary facts *)

Lemma string_condition_testable (f op : string) (v : value) :
  testable_condition (condition f op v).
Proof.
  exists [VStr f; VStr op; v]. split; [reflexivity | ].
  intros field o w H. injection H as <- <- <-. split; reflexivity.
Qed.

Lemma default_rules_valid : Forall valid_rule DEFAULT_RULES.
Proof.
  repeat constructor;
    (eexists; split; [reflexivity | ]);
    repeat constructor; apply string_condition_testable.
Qed.

Lemma default_rule_matches (facts r : dict) :
  In r DEFAULT_RULES -> rule_matches facts r = Ok (matchesb facts r).
Proof.
  intros Hin.
  pose proof default_rules_valid as Hv. rewrite Forall_forall in Hv.
  destruct (rule_matches_total facts r (Hv r Hin)) as [b Hb].
  unfold matchesb. rewrite Hb. destruct b; reflexivity.
Qed.

(** The run on the default rules, by the rules that match. *)
Lemma default_rules_run (facts : dict) :
  run_rules facts DEFAULT_RULES =
    Ok (decision_for (filter (matchesb facts) by_priority),
        filter (matchesb facts) by_priority).
Proof.
  unfold run_rules, DEFAULT_RULES, by_priority.
  cbn [fired_rules filter].
  rewrite (default_rule_matches facts top_merit) by (simpl; tauto).
  rewrite (default_rule_matches facts good_candidate) by (simpl; tauto).
  rewrite (default_rule_matches facts need_based) by (simpl; tauto).
  rewrite (default_rule_matches facts low_cgpa) by (simpl; tauto).
  rewrite (default_rule_matches facts serious_disciplinary) by (simpl; tauto).
  destruct (matchesb facts top_merit), (matchesb facts good_candidate),
    (matchesb facts need_based), (matchesb facts low_cgpa),
    (matchesb facts serious_disciplinary);
    vm_compute; reflexivity.
Qed.

(** X8.  On the default rules [run_rules] returns for every fact set,
    whatever the types of the facts, and so does the matching of each rule.
    The fired list is the matching rules in the order Top merit (100), Low
    CGPA (95), Serious disciplinary record (90), Good candidate (80),
    Need-based review (70), and the decision is the action of the first of
    them, or [NO_RULE] when none matches. *)
Theorem default_rules_decision_table (facts : dict) :
  Forall (fun r => rule_matches facts r = Ok (matchesb facts r)) DEFAULT_RULES /\
  run_rules facts DEFAULT_RULES =
    Ok (decision_for (filter (matchesb facts) by_priority),
        filter (matchesb facts) by_priority).
Proof.
  split; [ | apply default_rules_run].
  apply Forall_forall. intros r Hr. apply default_rule_matches. exact Hr.
Qed.

(** ** What a true condition says about the facts *)

Lemma evaluate_condition_true_inv (facts : dict) (f op : string) (v : value) :
  evaluate_condition facts (condition f op v) = Ok true ->
  exists a fn,
    lookup f facts = Some a /\ lookup op OPS = Some fn /\ fn a v = Ok true.
Proof.
  rewrite (evaluate_condition_triple facts (condition f op v)
             (VStr f) (VStr op) v eq_refl).
  unfold find. cbn [bind].
  destruct (lookup f facts) as [a | ]; [ | discriminate].
  destruct (lookup op OPS) as [fn | ]; [ | discriminate].
  intros H. exists a, fn. repeat split.
  destruct (fn a v) as [[ | ] | e]; simpl in H; congruence.
Qed.

Lemma py_compare_num_inv (op : cmpop) (a v : value) (q : Q) :
  num_of v = Some q -> py_compare op a v = Ok true ->
  exists p, num_of a = Some p /\ cmp_num op p q = true.
Proof.
  intros Hv H.
  destruct v; simpl in Hv; try discriminate; injection Hv as <-;
    destruct a; simpl in H; try discriminate;
    injection H as H; eexists; split; try reflexivity; exact H.
Qed.

Lemma py_eqb_num_inv (a v : value) (q : Q) :
  num_of v = Some q -> py_eqb a v = true ->
  exists p, num_of a = Some p /\ Qeq_bool p q = true.
Proof.
  intros Hv H.
  destruct v; simpl in Hv; try discriminate; injection Hv as <-;
    destruct a; simpl in H; try discriminate;
    eexists; split; try reflexivity; exact H.
Qed.

(** A true ordering condition against a number: the fact is a number that
    stands in the relation. *)
Lemma ordering_condition_inv (facts : dict) (f name : string) (op : cmpop)
      (v : value) (q : Q) :
  lookup name OPS = Some (py_compare op) ->
  num_of v = Some q ->
  evaluate_condition facts (condition f name v) = Ok true ->
  exists a p, lookup f facts = Some a /\ num_of a = Some p /\
              cmp_num op p q = true.
Proof.
  intros Hop Hv H.
  destruct (evaluate_condition_true_inv _ _ _ _ H) as [a [fn [Ha [Hfn Hr]]]].
  rewrite Hop in Hfn. injection Hfn as <-.
  destruct (py_compare_num_inv op a v q Hv Hr) as [p [Hp Hc]].
  exists a, p. auto.
Qed.

Lemma equality_condition_inv (facts : dict) (f : string) (v : value) (q : Q) :
  num_of v = Some q ->
  evaluate_condition facts (condition f "==" v) = Ok true ->
  exists a p, lookup f facts = Some a /\ num_of a = Some p /\
              Qeq_bool p q = true.
Proof.
  intros Hv H.
  destruct (evaluate_condition_true_inv _ _ _ _ H) as [a [fn [Ha [Hfn Hr]]]].
  injection Hfn as <-. injection Hr as Hr.
  destruct (py_eqb_num_inv a v q Hv Hr) as [p [Hp Hc]].
  exists a, p. auto.
Qed.

Lemma rule_matches_conditions (facts r : dict) (conds : list value) :
  lookup "conditions" r = Some (VList conds) ->
  rule_matches facts r = Ok true ->
  Forall (fun c => evaluate_condition facts c = Ok true) conds.
Proof.
  intros Hc H. unfold rule_matches, dict_get in H. rewrite Hc in H.
  apply all_conditions_true. exact H.
Qed.

(** What the matching of each default rule says about [cgpa] and
    [disciplinary_actions]. *)
Lemma top_merit_inv (facts : dict) :
  rule_matches facts top_merit = Ok true ->
  (exists a p, lookup "cgpa" facts = Some a /\ num_of a = Some p /\
               (float_3_7 <= p)%Q) /\
  (exists a p, lookup "disciplinary_actions" facts = Some a /\
               num_of a = Some p /\ (p == 0)%Q).
Proof.
  intros H.
  pose proof (rule_matches_conditions facts top_merit _ eq_refl H) as Hall.
  inversion Hall as [ | c1 l1 H1 Hall1]; subst.
  inversion Hall1 as [ | c2 l2 H2 Hall2]; subst.
  inversion Hall2 as [ | c3 l3 H3 Hall3]; subst.
  inversion Hall3 as [ | c4 l4 H4 Hall4]; subst.
  split.
  - destruct (ordering_condition_inv facts "cgpa" ">=" Ge (VFloat float_3_7) float_3_7
                eq_refl eq_refl H1) as [a [p [Ha [Hp Hc]]]].
    exists a, p. repeat split; try assumption.
    apply Qle_bool_iff. exact Hc.
  - destruct (equality_condition_inv facts "disciplinary_actions" (VInt 0) 0
                eq_refl H4) as [a [p [Ha [Hp Hc]]]].
    exists a, p. repeat split; try assumption.
    apply Qeq_bool_iff. exact Hc.
Qed.

Lemma good_candidate_inv (facts : dict) :
  rule_matches facts good_candidate = Ok true ->
  (exists a p, lookup "cgpa" facts = Some a /\ num_of a = Some p /\
               (float_3_3 <= p)%Q) /\
  (exists a p, lookup "disciplinary_actions" facts = Some a /\
               num_of a = Some p /\ (p <= 1)%Q).
Proof.
  intros H.
  pose proof (rule_matches_conditions facts good_candidate _ eq_refl H) as Hall.
  inversion Hall as [ | c1 l1 H1 Hall1]; subst.
  inversion Hall1 as [ | c2 l2 H2 Hall2]; subst.
  inversion Hall2 as [ | c3 l3 H3 Hall3]; subst.
  inversion Hall3 as [ | c4 l4 H4 Hall4]; subst.
  split.
  - destruct (ordering_condition_inv facts "cgpa" ">=" Ge (VFloat float_3_3) float_3_3
                eq_refl eq_refl H1) as [a [p [Ha [Hp Hc]]]].
    exists a, p. repeat split; try assumption.
    apply Qle_bool_iff. exact Hc.
  - destruct (ordering_condition_inv facts "disciplinary_actions" "<=" Le (VInt 1) 1
                eq_refl eq_refl H4) as [a [p [Ha [Hp Hc]]]].
    exists a, p. repeat split; try assumption.
    apply Qle_bool_iff. exact Hc.
Qed.

Lemma low_cgpa_inv (facts : dict) :
  rule_matches facts low_cgpa = Ok true ->
  exists a p, lookup "cgpa" facts = Some a /\ num_of a = Some p /\
              (p < float_2_5)%Q.
Proof.
  intros H.
  pose proof (rule_matches_conditions facts low_cgpa _ eq_refl H) as Hall.
  inversion Hall as [ | c1 l1 H1 Hall1]; subst.
  destruct (ordering_condition_inv facts "cgpa" "<" Lt (VFloat float_2_5) float_2_5
              eq_refl eq_refl H1) as [a [p [Ha [Hp Hc]]]].
  exists a, p. repeat split; try assumption.
  apply Qlt_bool_iff. exact Hc.
Qed.

Lemma serious_disciplinary_inv (facts : dict) :
  rule_matches facts serious_disciplinary = Ok true ->
  exists a p, lookup "disciplinary_actions" facts = Some a /\
              num_of a = Some p /\ (2 <= p)%Q.
Proof.
  intros H.
  pose proof (rule_matches_conditions facts serious_disciplinary _ eq_refl H)
    as Hall.
  inversion Hall as [ | c1 l1 H1 Hall1]; subst.
  destruct (ordering_condition_inv facts "disciplinary_actions" ">=" Ge (VInt 2) 2
              eq_refl eq_refl H1) as [a [p [Ha [Hp Hc]]]].
  exists a, p. repeat split; try assumption.
  apply Qle_bool_iff. exact Hc.
Qed.

(** ** Awards and rejections under the default rules *)

Lemma Q_bounds_clash (lo hi p : Q) :
  (lo <= p)%Q -> (p < hi)%Q -> Qle_bool hi lo = true -> False.
Proof.
  intros H1 H2 H3. apply Qle_bool_iff in H3.
  apply (Qlt_irrefl lo).
  eapply Qle_lt_trans; [exact H1 | ].
  eapply Qlt_le_trans; [exact H2 | exact H3].
Qed.

Lemma award_reject_clash (facts a r : dict) :
  In a [top_merit; good_candidate] ->
  In r [low_cgpa; serious_disciplinary] ->
  rule_matches facts a = Ok true -> rule_matches facts r = Ok true -> False.
Proof.
  intros Ha Hr Hma Hmr.
  assert (Hcg : exists x p lo, lookup "cgpa" facts = Some x /\
                  num_of x = Some p /\ (lo <= p)%Q /\
                  Qle_bool float_2_5 lo = true).
  { destruct Ha as [<- | [<- | []]].
    - destruct (top_merit_inv facts Hma) as [[x [p [Hx [Hp Hle]]]] _].
      exists x, p, float_3_7. repeat split; assumption || reflexivity.
    - destruct (good_candidate_inv facts Hma) as [[x [p [Hx [Hp Hle]]]] _].
      exists x, p, float_3_3. repeat split; assumption || reflexivity. }
  assert (Hdi : exists x p, lookup "disciplinary_actions" facts = Some x /\
                  num_of x = Some p /\ (p <= 1)%Q).
  { destruct Ha as [<- | [<- | []]].
    - destruct (top_merit_inv facts Hma) as [_ [x [p [Hx [Hp Heq]]]]].
      exists x, p. repeat split; try assumption.
      rewrite Heq. discriminate.
    - destruct (good_candidate_inv facts Hma) as [_ [x [p [Hx [Hp Hle]]]]].
      exists x, p. repeat split; assumption. }
  destruct Hr as [<- | [<- | []]].
  - destruct Hcg as [x [p [lo [Hx [Hp [Hle Hlo]]]]]].
    destruct (low_cgpa_inv facts Hmr) as [x' [p' [Hx' [Hp' Hlt]]]].
    rewrite Hx in Hx'. injection Hx' as <-.
    rewrite Hp in Hp'. injection Hp' as <-.
    exact (Q_bounds_clash lo float_2_5 p Hle Hlt Hlo).
  - destruct Hdi as [x [p [Hx [Hp Hle]]]].
    destruct (serious_disciplinary_inv facts Hmr) as [x' [p' [Hx' [Hp' Hge]]]].
    rewrite Hx in Hx'. injection Hx' as <-.
    rewrite Hp in Hp'. injection Hp' as <-.
    apply (Qlt_irrefl 1). eapply Qlt_le_trans; [ | exact Hle].
    eapply Qlt_le_trans; [ | exact Hge]. reflexivity.
Qed.

(** X9.  Under the default rules no fact set makes an award rule (Top merit
    candidate, Good candidate) and a rejection rule (Low CGPA, Serious
    disciplinary record) match together: their conditions on [cgpa] and on
    [disciplinary_actions] exclude each other. *)
Theorem award_excludes_reject (facts a r : dict) :
  In a [top_merit; good_candidate] ->
  In r [low_cgpa; serious_disciplinary] ->
  rule_matches facts a = Ok true ->
  rule_matches facts r = Ok false.
Proof.
  intros Ha Hr Hma.
  rewrite (default_rule_matches facts r).
  - destruct (matchesb facts r) eqn:E; [ | reflexivity].
    exfalso. apply matchesb_true in E.
    exact (award_reject_clash facts a r Ha Hr Hma E).
  - destruct Hr as [<- | [<- | []]]; simpl; tauto.
Qed.

Lemma award_excludes_reject_witness :
  In top_merit [top_merit; good_candidate] /\
  In serious_disciplinary [low_cgpa; serious_disciplinary] /\
  rule_matches scenario_1 top_merit = Ok true /\
  rule_matches scenario_1 serious_disciplinary = Ok false.
Proof.
  assert (H1 : In top_merit [top_merit; good_candidate])
    by (left; reflexivity).
  assert (H2 : In serious_disciplinary [low_cgpa; serious_disciplinary])
    by (right; left; reflexivity).
  assert (H3 : rule_matches scenario_1 top_merit = Ok true)
    by (vm_compute; reflexivity).
  exact (conj H1 (conj H2 (conj H3
           (award_excludes_reject scenario_1 _ _ H1 H2 H3)))).
Defined.

(** X10.  Under the default rules, whenever a rejection rule matches, the
    run decides [REJECT]: the fired list starts with Low CGPA or with
    Serious disciplinary record, whatever else matches. *)
Theorem reject_rule_decides (facts r : dict) :
  In r [low_cgpa; serious_disciplinary] ->
  rule_matches facts r = Ok true ->
  exists decision best rest,
    run_rules facts DEFAULT_RULES = Ok (decision, best :: rest) /\
    In best [low_cgpa; serious_disciplinary] /\
    decision_tag decision = VStr "REJECT".
Proof.
  intros Hr Hm. rewrite default_rules_run.
  assert (Htop : matchesb facts top_merit = false).
  { destruct (matchesb facts top_merit) eqn:E; [ | reflexivity].
    exfalso. apply matchesb_true in E.
    exact (award_reject_clash facts top_merit r (or_introl eq_refl) Hr E Hm). }
  apply matchesb_true in Hm.
  unfold by_priority. cbn [filter]. rewrite Htop.
  destruct Hr as [<- | [<- | []]].
  - rewrite Hm. do 3 eexists. split; [reflexivity | ].
    split; [left; reflexivity | reflexivity].
  - rewrite Hm. destruct (matchesb facts low_cgpa).
    + do 3 eexists. split; [reflexivity | ].
      split; [left; reflexivity | reflexivity].
    + do 3 eexists. split; [reflexivity | ].
      split; [right; left; reflexivity | reflexivity].
Qed.

Lemma reject_rule_decides_witness :
  In serious_disciplinary [low_cgpa; serious_disciplinary] /\
  rule_matches scenario_4 serious_disciplinary = Ok true /\
  exists decision best rest,
    run_rules scenario_4 DEFAULT_RULES = Ok (decision, best :: rest) /\
    In best [low_cgpa; serious_disciplinary] /\
    decision_tag decision = VStr "REJECT".
Proof.
  assert (H1 : In serious_disciplinary [low_cgpa; serious_disciplinary])
    by (right; left; reflexivity).
  assert (H2 : rule_matches scenario_4 serious_disciplinary = Ok true)
    by (vm_compute; reflexivity).
  exact (conj H1 (conj H2 (reject_rule_decides scenario_4 _ H1 H2))).
Defined.

(** X11.  Under the default rules the decision is [AWARD_FULL] exactly when
    Top merit candidate matches, and [AWARD_PARTIAL] exactly when Good
    candidate matches and Top merit candidate does not. *)
Theorem award_decisions (facts : dict) :
  exists decision fired,
    run_rules facts DEFAULT_RULES = Ok (decision, fired) /\
    (decision_tag decision = VStr "AWARD_FULL" <->
     rule_matches facts top_merit = Ok true) /\
    (decision_tag decision = VStr "AWARD_PARTIAL" <->
     rule_matches facts good_candidate = Ok true /\
     rule_matches facts top_merit = Ok false).
Proof.
  rewrite default_rules_run. do 2 eexists.
  split; [reflexivity | ].
  assert (Hgood : matchesb facts good_candidate = true ->
                  matchesb facts low_cgpa = false /\
                  matchesb facts serious_disciplinary = false).
  { intros Hg. apply matchesb_true in Hg.
    split.
    - destruct (matchesb facts low_cgpa) eqn:E; [ | reflexivity].
      exfalso. apply matchesb_true in E.
      refine (award_reject_clash facts good_candidate low_cgpa _ _ Hg E);
        simpl; tauto.
    - destruct (matchesb facts serious_disciplinary) eqn:E; [ | reflexivity].
      exfalso. apply matchesb_true in E.
      refine (award_reject_clash facts good_candidate serious_disciplinary
                _ _ Hg E); simpl; tauto. }
  rewrite (default_rule_matches facts top_merit) by (simpl; tauto).
  rewrite (default_rule_matches facts good_candidate) by (simpl; tauto).
  unfold by_priority. cbn [filter].
  destruct (matchesb facts top_merit) eqn:Et.
  - split; split; try reflexivity; try discriminate.
    intros [_ H]. discriminate.
  - destruct (matchesb facts good_candidate) eqn:Eg.
    + destruct (Hgood eq_refl) as [-> ->].
      split; split; try discriminate; try reflexivity.
      intros _. split; reflexivity.
    + destruct (matchesb facts low_cgpa), (matchesb facts serious_disciplinary),
        (matchesb facts need_based);
        split; split; try discriminate; intros [H _]; discriminate.
Qed.

(** ** Running again, and the order of the rules *)

Lemma sort_num_sorted_id {A : Type} (key : A -> value) (l : list A) :
  StronglySorted (key_ge key) l -> sort_num (num_key key) l = l.
Proof.
  intros H. induction H as [ | x xs Hxs IH Hall]; simpl; [reflexivity | ].
  rewrite IH. destruct xs as [ | y ys]; [reflexivity | ].
  simpl. inversion Hall as [ | y' ys' Hy _]; subst.
  apply Qlt_bool_false in Hy. rewrite Hy. reflexivity.
Qed.

Lemma fired_rules_all_match (facts : dict) (l : list dict) :
  Forall (fun r => rule_matches facts r = Ok true) l ->
  fired_rules facts l = Ok l.
Proof.
  intros H. induction H as [ | r rs Hr Hrs IH]; simpl; [reflexivity | ].
  rewrite Hr, IH. reflexivity.
Qed.

Lemma fired_rules_match (facts : dict) (rules fired : list dict) :
  fired_rules facts rules = Ok fired ->
  Forall (fun r => rule_matches facts r = Ok true) fired.
Proof.
  intros H. rewrite (fired_rules_filter _ _ _ H).
  apply Forall_forall. intros r Hr. apply filter_In in Hr.
  apply matchesb_true, Hr.
Qed.

(** X12.  Running the rules again on the fired list changes nothing: when
    the priorities of the matching rules are numbers, [run_rules] on its own
    fired list returns the same decision and the same fired list. *)
Theorem run_rules_idempotent (facts : dict) (rules fired : list dict) :
  fired_rules facts rules = Ok fired ->
  Forall numeric_priority fired ->
  exists decision out,
    run_rules facts rules = Ok (decision, out) /\
    run_rules facts out = Ok (decision, out).
Proof.
  intros Hf Hn.
  pose proof (sort_num_perm priority fired) as Hperm.
  pose proof (sort_num_sorted priority fired) as Hsort.
  change (num_key priority) with prio in Hperm.
  assert (Hf' : fired_rules facts (sort_num prio fired) =
                Ok (sort_num prio fired)).
  { apply fired_rules_all_match.
    eapply Permutation_Forall; [exact Hperm | ].
    exact (fired_rules_match facts rules fired Hf). }
  assert (Hn' : Forall numeric_priority (sort_num prio fired)).
  { eapply Permutation_Forall; [exact Hperm | exact Hn]. }
  assert (Hid : sort_num prio (sort_num prio fired) = sort_num prio fired)
    by exact (sort_num_sorted_id priority _ Hsort).
  exists (decision_for (sort_num prio fired)), (sort_num prio fired).
  rewrite (run_rules_numeric facts rules fired Hf Hn).
  rewrite (run_rules_numeric facts _ _ Hf' Hn'), Hid.
  destruct (sort_num prio fired); split; reflexivity.
Qed.

Lemma run_rules_idempotent_witness :
  fired_rules scenario_4 DEFAULT_RULES = Ok [need_based; serious_disciplinary] /\
  Forall numeric_priority [need_based; serious_disciplinary] /\
  exists decision out,
    run_rules scenario_4 DEFAULT_RULES = Ok (decision, out) /\
    run_rules scenario_4 out = Ok (decision, out).
Proof.
  assert (H1 : fired_rules scenario_4 DEFAULT_RULES =
               Ok [need_based; serious_disciplinary])
    by (vm_compute; reflexivity).
  assert (H2 : Forall numeric_priority [need_based; serious_disciplinary])
    by (repeat constructor).
  exact (conj H1 (conj H2 (run_rules_idempotent scenario_4 _ _ H1 H2))).
Defined.

Lemma filter_perm {A : Type} (f : A -> bool) (l l' : list A) :
  Permutation l l' -> Permutation (filter f l) (filter f l').
Proof.
  intros H. induction H as [ | x l l' H IH | x y l | l l' l'' H1 IH1 H2 IH2].
  - apply perm_nil.
  - simpl. destruct (f x); [apply perm_skip | ]; exact IH.
  - simpl. destruct (f x), (f y);
      try apply Permutation_refl. apply perm_swap.
  - eapply perm_trans; eassumption.
Qed.

Lemma fired_rules_Ok (facts : dict) (rules : list dict) :
  Forall (fun r => exists b, rule_matches facts r = Ok b) rules ->
  fired_rules facts rules = Ok (filter (matchesb facts) rules).
Proof.
  intros H. induction H as [ | r rs [b Hr] Hrs IH]; simpl; [reflexivity | ].
  unfold matchesb at 1. rewrite Hr, IH. destruct b; reflexivity.
Qed.

Lemma fired_rules_returns (facts : dict) (rules fired : list dict) :
  fired_rules facts rules = Ok fired ->
  Forall (fun r => exists b, rule_matches facts r = Ok b) rules.
Proof.
  revert fired. induction rules as [ | r rs IH]; simpl; intros fired H.
  - constructor.
  - apply bind_Ok in H. destruct H as [b [Hb H]].
    apply bind_Ok in H. destruct H as [rest [Hrest _]].
    constructor; [eauto | exact (IH rest Hrest)].
Qed.

Lemma insert_num_comm {A : Type} (q : A -> Q) (x y : A) (s : list A) :
  ~ (q x == q y)%Q ->
  insert_num q x (insert_num q y s) = insert_num q y (insert_num q x s).
Proof.
  intros Hne.
  assert (Hxy : Qlt_bool (q x) (q y) = negb (Qlt_bool (q y) (q x))).
  { destruct (Q_trichotomy_bool (q x) (q y))
      as [[H1 [H2 H3]] | [[H1 [H2 H3]] | [H1 [H2 H3]]]];
      rewrite H1, H3; try reflexivity.
    apply Qeq_bool_iff in H2. contradiction. }
  induction s as [ | z zs IH]; simpl.
  - rewrite Hxy. destruct (Qlt_bool (q y) (q x)); reflexivity.
  - destruct (Qlt_bool (q y) (q z)) eqn:Eyz;
      destruct (Qlt_bool (q x) (q z)) eqn:Exz; simpl;
      rewrite ?Eyz, ?Exz.
    + rewrite IH. reflexivity.
    + destruct (Qlt_bool (q y) (q x)) eqn:Eyx; [reflexivity | ].
      exfalso. apply Qlt_bool_iff in Eyz.
      apply Qlt_bool_false in Exz, Eyx.
      apply (Qlt_irrefl (q y)).
      eapply Qlt_le_trans; [exact Eyz | ].
      eapply Qle_trans; eassumption.
    + rewrite Hxy. destruct (Qlt_bool (q y) (q x)) eqn:Eyx; [ | reflexivity].
      exfalso. apply Qlt_bool_iff in Exz, Eyx.
      apply Qlt_bool_false in Eyz.
      apply (Qlt_irrefl (q x)).
      eapply Qlt_le_trans; [exact Exz | ].
      eapply Qle_trans; [exact Eyz | ]. apply Qlt_le_weak. exact Eyx.
    + rewrite Hxy. destruct (Qlt_bool (q y) (q x)); reflexivity.
Qed.

Lemma sort_num_perm_eq {A : Type} (q : A -> Q) (l l' : list A) :
  Permutation l l' ->
  NoDup (map (fun x => Qred (q x)) l) ->
  sort_num q l = sort_num q l'.
Proof.
  intros H. induction H as [ | x l l' H IH | x y l | l l' l'' H1 IH1 H2 IH2];
    intros Hnd.
  - reflexivity.
  - simpl. rewrite IH; [reflexivity | ]. simpl in Hnd.
    inversion Hnd; assumption.
  - simpl. apply insert_num_comm.
    simpl in Hnd. inversion Hnd as [ | a m Hnot _]; subst.
    intros Heq. apply Hnot. left. apply Qred_complete.
    symmetry. exact Heq.
  - rewrite IH1 by exact Hnd. apply IH2.
    eapply Permutation_NoDup; [ | exact Hnd].
    apply Permutation_map. exact H1.
Qed.

(** X13.  When the matching rules have pairwise different finite numbers
    for priority (no NaN, which this model of values leaves out and on which
    [sorted] depends on the input order), the order in which the rules are
    supplied does not matter:
    [run_rules] on any rearrangement of the rules returns the same decision
    and the same fired list. *)
Theorem run_rules_order_independent (facts : dict)
        (rules rules' fired : list dict) :
  fired_rules facts rules = Ok fired ->
  Forall numeric_priority fired ->
  distinct_priorities fired ->
  Permutation rules rules' ->
  run_rules facts rules' = run_rules facts rules.
Proof.
  intros Hf Hn Hd Hp.
  pose proof (fired_rules_filter _ _ _ Hf) as Hfired.
  assert (Hf' : fired_rules facts rules' = Ok (filter (matchesb facts) rules')).
  { apply fired_rules_Ok. eapply Permutation_Forall; [exact Hp | ].
    exact (fired_rules_returns facts rules fired Hf). }
  assert (Hpf : Permutation fired (filter (matchesb facts) rules')).
  { rewrite Hfired. apply filter_perm. exact Hp. }
  assert (Hn' : Forall numeric_priority (filter (matchesb facts) rules')).
  { eapply Permutation_Forall; [exact Hpf | exact Hn]. }
  rewrite (run_rules_numeric facts rules fired Hf Hn).
  rewrite (run_rules_numeric facts rules' _ Hf' Hn').
  rewrite (sort_num_perm_eq prio fired _ Hpf Hd). reflexivity.
Qed.

Lemma run_rules_order_independent_witness :
  fired_rules scenario_4 DEFAULT_RULES = Ok [need_based; serious_disciplinary] /\
  Forall numeric_priority [need_based; serious_disciplinary] /\
  distinct_priorities [need_based; serious_disciplinary] /\
  Permutation DEFAULT_RULES (rev DEFAULT_RULES) /\
  run_rules scenario_4 (rev DEFAULT_RULES) = run_rules scenario_4 DEFAULT_RULES.
Proof.
  assert (H1 : fired_rules scenario_4 DEFAULT_RULES =
               Ok [need_based; serious_disciplinary])
    by (vm_compute; reflexivity).
  assert (H2 : Forall numeric_priority [need_based; serious_disciplinary])
    by (repeat constructor).
  assert (H3 : distinct_priorities [need_based; serious_disciplinary]).
  { unfold distinct_priorities. repeat constructor; simpl.
    - intros [H | []]. vm_compute in H. discriminate H.
    - intros []. }
  assert (H4 : Permutation DEFAULT_RULES (rev DEFAULT_RULES))
    by apply Permutation_rev.
  exact (conj H1 (conj H2 (conj H3 (conj H4
           (run_rules_order_independent scenario_4 _ _ _ H1 H2 H3 H4))))).
Defined.

(** ** Facts that no condition names *)

Lemma find_same_but (k : string) (facts facts' : dict) (field : value) :
  same_but k facts facts' -> field <> VStr k ->
  find facts field = find facts' field.
Proof.
  intros Hs Hne. destruct field; try reflexivity.
  simpl. f_equal. apply Hs. intros ->. apply Hne. reflexivity.
Qed.

Lemma evaluate_condition_same_but (k : string) (facts facts' : dict)
      (c : value) :
  same_but k facts facts' -> condition_ignores k c ->
  evaluate_condition facts c = evaluate_condition facts' c.
Proof.
  intros Hs Hc. unfold evaluate_condition.
  destruct (py_len c) as [n | e]; [ | reflexivity]. cbn [bind].
  destruct (negb (n =? 3)%nat); [reflexivity | ].
  destruct (py_iter c) as [items | e] eqn:Hit; [ | reflexivity]. cbn [bind].
  destruct items as [ | field [ | op [ | v [ | ? ?]]]]; try reflexivity.
  rewrite (find_same_but k facts facts' field Hs (Hc field op v Hit)).
  reflexivity.
Qed.

Lemma all_conditions_same_but (k : string) (facts facts' : dict)
      (conds : list value) :
  same_but k facts facts' -> Forall (condition_ignores k) conds ->
  all_conditions facts conds = all_conditions facts' conds.
Proof.
  intros Hs H. induction H as [ | c cs Hc Hcs IH]; simpl; [reflexivity | ].
  rewrite (evaluate_condition_same_but k facts facts' c Hs Hc), IH.
  reflexivity.
Qed.

Lemma fired_rules_same_but (k : string) (facts facts' : dict)
      (rules : list dict) :
  same_but k facts facts' -> Forall (rule_ignores k) rules ->
  fired_rules facts rules = fired_rules facts' rules.
Proof.
  intros Hs H. induction H as [ | r rs Hr Hrs IH]; simpl; [reflexivity | ].
  rewrite IH. f_equal. unfold rule_matches.
  destruct (py_iter (dict_get r "conditions" (VList []))) as [conds | e] eqn:E;
    [ | reflexivity].
  cbn [bind]. apply (all_conditions_same_but k); [exact Hs | ].
  apply Hr. exact E.
Qed.

(** X14.  A fact that no condition names has no influence: when two fact
    sets differ at most in the field [k] and no condition of the rules has
    [k] for field, [run_rules] returns the same on both. *)
Theorem run_rules_ignores_unnamed_fact (k : string) (facts facts' : dict)
        (rules : list dict) :
  same_but k facts facts' ->
  Forall (rule_ignores k) rules ->
  run_rules facts rules = run_rules facts' rules.
Proof.
  intros Hs Hr. unfold run_rules.
  rewrite (fired_rules_same_but k facts facts' rules Hs Hr). reflexivity.
Qed.

Lemma run_rules_ignores_unnamed_fact_witness :
  same_but "semester" scenario_4 scenario_4_form /\
  Forall (rule_ignores "semester") DEFAULT_RULES /\
  run_rules scenario_4 DEFAULT_RULES = run_rules scenario_4_form DEFAULT_RULES.
Proof.
  assert (H1 : same_but "semester" scenario_4 scenario_4_form).
  { intros f Hf. unfold scenario_4_form.
    destruct (lookup f scenario_4) as [v | ] eqn:E.
    - symmetry. apply lookup_app_Some. exact E.
    - rewrite (lookup_app_None f scenario_4 _ E). simpl.
      apply String.eqb_neq in Hf. rewrite Hf. reflexivity. }
  assert (H2 : Forall (rule_ignores "semester") DEFAULT_RULES).
  { repeat constructor; intros conds Hc; injection Hc as <-;
      repeat constructor; intros field op v Hit;
      injection Hit as <- _ _; discriminate. }
  exact (conj H1 (conj H2
           (run_rules_ignores_unnamed_fact "semester" _ _ _ H1 H2))).
Defined.

(** ** The decision on screen *)

(** X15.  When no rule matches, the Final Decision column shows the tag
    [NO_RULE] as an information message; the reason of the sentinel is not
    shown. *)
Theorem no_match_shown_as_info (facts : dict) (rules : list dict) :
  Forall (fun r => rule_matches facts r = Ok false) rules ->
  exists decision,
    run_rules facts rules = Ok (decision, []) /\
    final_decision decision = Shows (st_info (VStr "NO_RULE")).
Proof.
  intros H. exists NO_RULE. unfold run_rules.
  rewrite (fired_rules_none facts rules H). split; reflexivity.
Qed.

Lemma no_match_shown_as_info_witness :
  Forall (fun r => rule_matches scenario_1 r = Ok false)
         [low_cgpa; serious_disciplinary] /\
  exists decision,
    run_rules scenario_1 [low_cgpa; serious_disciplinary] = Ok (decision, []) /\
    final_decision decision = Shows (st_info (VStr "NO_RULE")).
Proof.
  assert (H : Forall (fun r => rule_matches scenario_1 r = Ok false)
                     [low_cgpa; serious_disciplinary])
    by (repeat constructor; vm_compute; reflexivity).
  exact (conj H (no_match_shown_as_info scenario_1 _ H)).
Defined.

(** X16.  What is shown for a winning rule with an unusual action.  Without
    an [action] field the engine substitutes [NO_ACTION] and the column
    shows that tag as information; with an action object that has no
    [decision] the column falls back to [REVIEW] and shows a warning; with
    an action that is not an object the column stops with
    [AttributeError]. *)
Theorem unusual_action_shown (facts : dict) (rules : list dict)
        (decision : value) (best : dict) (rest : list dict) :
  run_rules facts rules = Ok (decision, best :: rest) ->
  (lookup "action" best = None ->
   final_decision decision = Shows (st_info (VStr "NO_ACTION"))) /\
  (forall a, lookup "action" best = Some (VDict a) ->
             lookup "decision" a = None ->
             final_decision decision =
               Shows (st_warning "REVIEW REQUIRED"
                        (dict_get a "reason" (VStr "-")))) /\
  (forall v, lookup "action" best = Some v ->
             (forall a, v <> VDict a) ->
             final_decision decision = AttributeError).
Proof.
  intros H. destruct (run_rules_Ok _ _ _ _ H) as [fired0 [_ [_ ->]]].
  unfold decision_for, dict_get.
  split; [ | split].
  - intros ->. reflexivity.
  - intros a -> Ha. unfold final_decision, dict_get. rewrite Ha. reflexivity.
  - intros v -> Hv. destruct v; try reflexivity.
    exfalso. exact (Hv d eq_refl).
Qed.

Lemma unusual_action_shown_witness :
  run_rules scenario_4 [empty_action_rule; negative_rule] =
    Ok (VDict [], [empty_action_rule; negative_rule]) /\
  ((lookup "action" empty_action_rule = None ->
    final_decision (VDict []) = Shows (st_info (VStr "NO_ACTION"))) /\
   (forall a, lookup "action" empty_action_rule = Some (VDict a) ->
              lookup "decision" a = None ->
              final_decision (VDict []) =
                Shows (st_warning "REVIEW REQUIRED"
                         (dict_get a "reason" (VStr "-")))) /\
   (forall v, lookup "action" empty_action_rule = Some v ->
              (forall a, v <> VDict a) ->
              final_decision (VDict []) = AttributeError)).
Proof.
  assert (H : run_rules scenario_4 [empty_action_rule; negative_rule] =
              Ok (VDict [], [empty_action_rule; negative_rule]))
    by (vm_compute; reflexivity).
  exact (conj H (unusual_action_shown scenario_4 _ _ _ _ H)).
Defined.

(** X17.  With the default rules the Final Decision column never stops
    with an error, for any fact set: it shows an information message
    exactly when no rule matched, an error message exactly when the decision
    is [REJECT], a success message exactly when it is an award, and a
    warning exactly when it is [REVIEW]. *)
Theorem default_rules_shown (facts : dict) :
  exists decision fired p,
    run_rules facts DEFAULT_RULES = Ok (decision, fired) /\
    final_decision decision = Shows p /\
    (is_info p = true <-> fired = []) /\
    ((exists reason, p = st_error "REJECTED" reason) <->
     decision_tag decision = VStr "REJECT") /\
    ((exists label reason, p = st_success label reason) <->
     decision_tag decision = VStr "AWARD_FULL" \/
     decision_tag decision = VStr "AWARD_PARTIAL") /\
    ((exists reason, p = st_warning "REVIEW REQUIRED" reason) <->
     decision_tag decision = VStr "REVIEW").
Proof.
  rewrite default_rules_run. unfold by_priority. cbn [filter].
  destruct (matchesb facts top_merit), (matchesb facts low_cgpa),
    (matchesb facts serious_disciplinary), (matchesb facts good_candidate),
    (matchesb facts need_based);
    do 3 eexists; (split; [reflexivity | ]); (split; [reflexivity | ]);
    repeat split;
    try discriminate; try reflexivity; eauto;
    try (intros [? H]; discriminate H);
    try (intros [? [? H]]; discriminate H);
    try (intros [H | H]; discriminate H).
Qed.

(** ** A low CGPA under the default rules *)

(** X18.  Under the default rules a fact set whose [cgpa] is a number below
    2.5 is always rejected for its CGPA, whatever the other facts are (or
    whether they are there at all): Low CGPA heads the fired list. *)
Theorem low_cgpa_always_rejected (facts : dict) (a : value) (p : Q) :
  lookup "cgpa" facts = Some a ->
  num_of a = Some p ->
  (p < float_2_5)%Q ->
  exists rest,
    run_rules facts DEFAULT_RULES =
      Ok (action "REJECT" "CGPA below minimum scholarship requirement",
          low_cgpa :: rest).
Proof.
  intros Hf Ha Hlt.
  assert (Hlow : rule_matches facts low_cgpa = Ok true).
  { unfold rule_matches. cbn [dict_get lookup low_cgpa].
    change (py_iter (dict_get low_cgpa "conditions" (VList [])))
      with (Ok [condition "cgpa" "<" (VFloat float_2_5)]).
    cbn [bind all_conditions].
    rewrite (evaluate_condition_field facts "cgpa" "<" _ a _ Hf eq_refl).
    rewrite (py_compare_num Lt a (VFloat float_2_5) p float_2_5 Ha eq_refl).
    cbn [cmp_num try_except_false bind].
    apply Qlt_bool_iff in Hlt. rewrite Hlt. reflexivity. }
  assert (Htop : matchesb facts top_merit = false).
  { destruct (matchesb facts top_merit) eqn:E; [ | reflexivity].
    exfalso. apply matchesb_true in E.
    refine (award_reject_clash facts top_merit low_cgpa _ _ E Hlow);
      simpl; tauto. }
  apply matchesb_true in Hlow.
  rewrite default_rules_run. unfold by_priority. cbn [filter].
  rewrite Htop, Hlow. eexists. reflexivity.
Qed.

Lemma low_cgpa_always_rejected_witness :
  lookup "cgpa" [("cgpa", VInt 2)] = Some (VInt 2) /\
  num_of (VInt 2) = Some (inject_Z 2) /\
  (inject_Z 2 < float_2_5)%Q /\
  exists rest,
    run_rules [("cgpa", VInt 2)] DEFAULT_RULES =
      Ok (action "REJECT" "CGPA below minimum scholarship requirement",
          low_cgpa :: rest).
Proof.
  assert (H1 : lookup "cgpa" [("cgpa", VInt 2)] = Some (VInt 2))
    by reflexivity.
  assert (H2 : num_of (VInt 2) = Some (inject_Z 2)) by reflexivity.
  assert (H3 : (inject_Z 2 < float_2_5)%Q) by reflexivity.
  exact (conj H1 (conj H2 (conj H3
           (low_cgpa_always_rejected [("cgpa", VInt 2)] _ _ H1 H2 H3)))).
Defined.
